(** * Translation orchestration of the neural-translator front-end

    A shallow embedding of [detectLanguageAndTranslate] (the [handle]
    operation of the orchestration core), the async function of the [App]
    component in [src/components/LanguageSelector.tsx] (second document of
    that file, lines 246-443), and of what it relies on: the insertion-ordered
    [Map] used as translation cache, the Tauri backend commands reached
    through [invoke], [localStorage], [performance.now] and the React state
    setters.

    JavaScript strings are modelled by [string], read as the UTF-8 encoding of
    the text.  The backend is an oracle ([Env]) that gives, for every command
    and argument, how long the call takes and whether the promise resolves or
    rejects.  The function is written in a small state-and-exception monad
    whose state ([Machine]) holds the React state, the wall clock, the log of
    what the run did, and the three [let] variables of the function that its
    [catch] block reads back.

    The rest of [App] that decides when and with what the function is
    called is embedded after it: the health probes, the engine button, the
    setup of the native language, the initial state, the debounce effect on
    [inputText], the clipboard poll, the translate shortcut, the history
    screen's callback and the language swap; and, of [SettingsScreen.tsx],
    the handlers that write the [localStorage] keys the function reads. *)

From Stdlib Require Import String Ascii List Bool ZArith QArith Qround Lia Lqa
  DecimalString.
Import ListNotations.

Local Open Scope string_scope.
Local Open Scope Z_scope.

(** ** JavaScript values and strings *)

(** What a rejected promise carries.  The function only asks whether the
    value is a string ([typeof error === 'string']). *)
Inductive JsValue : Type :=
| JsString (s : string)
| JsObject.

(** Truthiness of a string: every string but the empty one. *)
Definition truthy (s : string) : bool :=
  match s with
  | EmptyString => false
  | String _ _ => true
  end.

(** [a || b] on a value that is a string, [null] or [undefined]. *)
Definition or_else (a : option string) (b : string) : string :=
  match a with
  | Some s => if truthy s then s else b
  | None => b
  end.

(** [hay.includes(needle)]. *)
Fixpoint includes (needle hay : string) : bool :=
  if prefix needle hay then true
  else match hay with
       | EmptyString => false
       | String _ rest => includes needle rest
       end.

Definition bytes_of (s : string) : list N :=
  map N_of_ascii (list_ascii_of_string s).

(** The code points [trim] removes that fit in one byte: TAB, LF, VT, FF, CR
    and SPACE. *)
Definition white1 (b : N) : bool :=
  ((9 <=? b) && (b <=? 13) || (b =? 32))%N.

(** U+00A0, encoded on two bytes. *)
Definition white2 (b1 b2 : N) : bool :=
  ((b1 =? 194) && (b2 =? 160))%N.

(** U+1680, U+2000..U+200A, U+2028, U+2029, U+202F, U+205F, U+3000 and
    U+FEFF, encoded on three bytes. *)
Definition white3 (b1 b2 b3 : N) : bool :=
  ((b1 =? 225) && (b2 =? 154) && (b3 =? 128)
   || (b1 =? 226) && (b2 =? 128)
      && ((128 <=? b3) && (b3 <=? 138) || (b3 =? 168) || (b3 =? 169) || (b3 =? 175))
   || (b1 =? 226) && (b2 =? 129) && (b3 =? 159)
   || (b1 =? 227) && (b2 =? 128) && (b3 =? 128)
   || (b1 =? 239) && (b2 =? 187) && (b3 =? 191))%N.

Fixpoint all_white (l : list N) : bool :=
  match l with
  | [] => true
  | b1 :: r1 =>
      if white1 b1 then all_white r1
      else match r1 with
           | [] => false
           | b2 :: r2 =>
               if white2 b1 b2 then all_white r2
               else match r2 with
                    | [] => false
                    | b3 :: r3 => if white3 b1 b2 b3 then all_white r3 else false
                    end
           end
  end.

(** [!s.trim()]: the string is empty once white space and line terminators
    are trimmed from both ends, that is, it holds nothing else. *)
Definition blank (s : string) : bool := all_white (bytes_of s).

(** [Math.round]: the nearest integer, halves going up. *)
Definition Math_round (x : Q) : Z := Qfloor (x + (1 # 2)).

(** ** The translation cache: a JavaScript [Map] from string to string

    A [Map] keeps its entries in insertion order; [set] on a key it already
    holds replaces the value where it stands. *)
Module JsMap.

Definition t : Type := list (string * string).

Fixpoint get (k : string) (m : t) : option string :=
  match m with
  | [] => None
  | (k', v) :: rest => if (k' =? k)%string then Some v else get k rest
  end.

Fixpoint set (k v : string) (m : t) : t :=
  match m with
  | [] => [(k, v)]
  | (k', v') :: rest =>
      if (k' =? k)%string then (k', v) :: rest else (k', v') :: set k v rest
  end.

Fixpoint delete (k : string) (m : t) : t :=
  match m with
  | [] => []
  | (k', v') :: rest =>
      if (k' =? k)%string then rest else (k', v') :: delete k rest
  end.

Definition size (m : t) : Z := Z.of_nat (length m).

(** [m.keys().next().value]: [undefined] on an empty map. *)
Definition first_key (m : t) : option string :=
  match m with
  | [] => None
  | (k, _) :: _ => Some k
  end.

Definition keys (m : t) : list string := map fst m.

End JsMap.

(** ** React state, backend and machine *)

Inductive Engine : Type := ml | ollama.

(** The state variables of [App] that the function reads or writes. *)
Record AppState : Type := {
  translatedText : string;
  fromLang : string;
  toLang : string;
  isTranslating : bool;
  isHealthy : bool;
  mlEngineHealthy : bool;
  useMLEngine : bool;
  translationCache : JsMap.t;
  lastTranslationLatency : option Z;
  lastUsedEngine : option Engine
}.

(** The argument of [save_translation_history]. *)
Record HistoryEntry : Type := {
  sourceText : string;
  h_translatedText : string;
  fromLanguage : string;
  toLanguage : string;
  engine : Engine;
  latencyMs : option Z;
  historyPath : option string
}.

(** The backend commands the function invokes. *)
Inductive Command : Type :=
| ml_detect_language (text : string)
| detect_language (text : string)
| ml_translate (text fromLang toLang : string)
| translate (text fromLang toLang : string)
| save_translation_history (entry : HistoryEntry).

(** [MLTranslateResponse]; its [confidence_score] is never read. *)
Record MLTranslateResponse : Type := {
  translated_text : string;
  latency_ms : Z
}.

(** How a call ends: the wall-clock time it took, and the value the promise
    resolved with ([inr]) or was rejected with ([inl]). *)
Record Reply (A : Type) : Type := {
  elapsed : Q;
  outcome : JsValue + A
}.
Arguments elapsed {A} _.
Arguments outcome {A} _.

(** Everything outside the function: the backend behind [invoke] and the
    content of [localStorage], which the function only reads.  The detection
    commands answer with [language], the baseline [translate] with
    [translated_text]. *)
Record Env : Type := {
  on_ml_detect_language : string -> Reply string;
  on_detect_language : string -> Reply string;
  on_ml_translate : string -> string -> string -> Reply MLTranslateResponse;
  on_translate : string -> string -> string -> Reply string;
  on_save_translation_history : HistoryEntry -> Reply unit;
  localStorage : string -> option string
}.

(** What a run leaves in its log: the commands invoked, in order, and the
    calls of [setIsTranslating]. *)
Inductive Event : Type :=
| Invoked (c : Command)
| IsTranslatingSet (b : bool).

(** The [let] variables declared before the [try] block. *)
Record Frame : Type := {
  actualFromLang : string;
  actualToLang : string;
  cacheKey : string
}.

Record Machine : Type := {
  state : AppState;
  clock : Q;
  events : list Event;
  frame : Frame
}.

(** ** The monad: state that survives a throw *)

Definition M (A : Type) : Type := Machine -> (JsValue + A) * Machine.

Definition ret {A} (a : A) : M A := fun m => (inr a, m).

Definition bind {A B} (c : M A) (k : A -> M B) : M B :=
  fun m =>
    match c m with
    | (inr a, m') => k a m'
    | (inl e, m') => (inl e, m')
    end.

Definition throw {A} (e : JsValue) : M A := fun m => (inl e, m).

(** [try { body } catch (error) { handler error }]. *)
Definition try_catch {A} (body : M A) (handler : JsValue -> M A) : M A :=
  fun m =>
    match body m with
    | (inr a, m') => (inr a, m')
    | (inl e, m') => handler e m'
    end.

(** [try { body } finally { fin }], for a [fin] that does not throw. *)
Definition try_finally {A} (body : M A) (fin : M unit) : M A :=
  fun m =>
    match body m with
    | (r, m') => (r, snd (fin m'))
    end.

Declare Scope js_scope.
Delimit Scope js_scope with js.
Notation "x <- c ;; k" := (bind c (fun x => k))
  (at level 100, c at next level, right associativity) : js_scope.
Notation "c ;; k" := (bind c (fun _ => k))
  (at level 100, right associativity) : js_scope.
Local Open Scope js_scope.

Definition update_app (f : AppState -> AppState) : M unit :=
  fun m => (inr tt, {| state := f (state m); clock := clock m;
                       events := events m; frame := frame m |}).

Definition update_frame (f : Frame -> Frame) : M unit :=
  fun m => (inr tt, {| state := state m; clock := clock m;
                       events := events m; frame := f (frame m) |}).

Definition emit (ev : Event) : M unit :=
  fun m => (inr tt, {| state := state m; clock := clock m;
                       events := events m ++ [ev]; frame := frame m |}).

(** [await invoke(c)]: the call is logged, time passes, and the reply is
    returned or thrown. *)
Definition invoke {A} (c : Command) (r : Reply A) : M A :=
  fun m => (outcome r, {| state := state m; clock := (clock m + elapsed r)%Q;
                          events := events m ++ [Invoked c]; frame := frame m |}).

Definition performance_now : M Q := fun m => (inr (clock m), m).

(** ** State setters and cache operations *)

Definition with_translatedText (v : string) (s : AppState) : AppState :=
  {| translatedText := v; fromLang := fromLang s; toLang := toLang s;
     isTranslating := isTranslating s; isHealthy := isHealthy s;
     mlEngineHealthy := mlEngineHealthy s; useMLEngine := useMLEngine s;
     translationCache := translationCache s;
     lastTranslationLatency := lastTranslationLatency s;
     lastUsedEngine := lastUsedEngine s |}.

Definition with_fromLang (v : string) (s : AppState) : AppState :=
  {| translatedText := translatedText s; fromLang := v; toLang := toLang s;
     isTranslating := isTranslating s; isHealthy := isHealthy s;
     mlEngineHealthy := mlEngineHealthy s; useMLEngine := useMLEngine s;
     translationCache := translationCache s;
     lastTranslationLatency := lastTranslationLatency s;
     lastUsedEngine := lastUsedEngine s |}.

Definition with_toLang (v : string) (s : AppState) : AppState :=
  {| translatedText := translatedText s; fromLang := fromLang s; toLang := v;
     isTranslating := isTranslating s; isHealthy := isHealthy s;
     mlEngineHealthy := mlEngineHealthy s; useMLEngine := useMLEngine s;
     translationCache := translationCache s;
     lastTranslationLatency := lastTranslationLatency s;
     lastUsedEngine := lastUsedEngine s |}.

Definition with_isTranslating (v : bool) (s : AppState) : AppState :=
  {| translatedText := translatedText s; fromLang := fromLang s;
     toLang := toLang s; isTranslating := v; isHealthy := isHealthy s;
     mlEngineHealthy := mlEngineHealthy s; useMLEngine := useMLEngine s;
     translationCache := translationCache s;
     lastTranslationLatency := lastTranslationLatency s;
     lastUsedEngine := lastUsedEngine s |}.

Definition with_translationCache (v : JsMap.t) (s : AppState) : AppState :=
  {| translatedText := translatedText s; fromLang := fromLang s;
     toLang := toLang s; isTranslating := isTranslating s;
     isHealthy := isHealthy s; mlEngineHealthy := mlEngineHealthy s;
     useMLEngine := useMLEngine s; translationCache := v;
     lastTranslationLatency := lastTranslationLatency s;
     lastUsedEngine := lastUsedEngine s |}.

Definition with_lastTranslationLatency (v : option Z) (s : AppState) : AppState :=
  {| translatedText := translatedText s; fromLang := fromLang s;
     toLang := toLang s; isTranslating := isTranslating s;
     isHealthy := isHealthy s; mlEngineHealthy := mlEngineHealthy s;
     useMLEngine := useMLEngine s; translationCache := translationCache s;
     lastTranslationLatency := v; lastUsedEngine := lastUsedEngine s |}.

Definition with_lastUsedEngine (v : option Engine) (s : AppState) : AppState :=
  {| translatedText := translatedText s; fromLang := fromLang s;
     toLang := toLang s; isTranslating := isTranslating s;
     isHealthy := isHealthy s; mlEngineHealthy := mlEngineHealthy s;
     useMLEngine := useMLEngine s; translationCache := translationCache s;
     lastTranslationLatency := lastTranslationLatency s; lastUsedEngine := v |}.

Definition setTranslatedText (v : string) : M unit :=
  update_app (with_translatedText v).
Definition setFromLang (v : string) : M unit := update_app (with_fromLang v).
Definition setToLang (v : string) : M unit := update_app (with_toLang v).
Definition setIsTranslating (v : bool) : M unit :=
  update_app (with_isTranslating v) ;; emit (IsTranslatingSet v).
Definition setLastTranslationLatency (v : Z) : M unit :=
  update_app (with_lastTranslationLatency (Some v)).
Definition setLastUsedEngine (v : Engine) : M unit :=
  update_app (with_lastUsedEngine (Some v)).

(** The cache is one mutable [Map] object: reads see every earlier write. *)
Definition cache_get (k : string) : M (option string) :=
  fun m => (inr (JsMap.get k (translationCache (state m))), m).
Definition cache_set (k v : string) : M unit :=
  update_app (fun s => with_translationCache (JsMap.set k v (translationCache s)) s).
Definition cache_delete (k : string) : M unit :=
  update_app (fun s => with_translationCache (JsMap.delete k (translationCache s)) s).
Definition cache_size : M Z :=
  fun m => (inr (JsMap.size (translationCache (state m))), m).
Definition cache_first_key : M (option string) :=
  fun m => (inr (JsMap.first_key (translationCache (state m))), m).

Definition read_frame {A} (f : Frame -> A) : M A :=
  fun m => (inr (f (frame m)), m).
Definition set_actualFromLang (v : string) : M unit :=
  update_frame (fun f => {| actualFromLang := v; actualToLang := actualToLang f;
                            cacheKey := cacheKey f |}).
Definition set_actualToLang (v : string) : M unit :=
  update_frame (fun f => {| actualFromLang := actualFromLang f; actualToLang := v;
                            cacheKey := cacheKey f |}).
Definition set_cacheKey (v : string) : M unit :=
  update_frame (fun f => {| actualFromLang := actualFromLang f;
                            actualToLang := actualToLang f; cacheKey := v |}).

(** ** The user-facing error messages *)

Definition LF : string := String (ascii_of_nat 10) EmptyString.

Definition msg_default : string := "翻訳エラーが発生しました".
Definition msg_cannot_connect : string :=
  "Ollamaに接続できません。Ollamaが起動していることを確認してください。"
  ++ LF ++ LF ++ "起動方法: ollama serve".
Definition msg_no_model : string :=
  "適切なモデルが見つかりません。" ++ LF ++ LF
  ++ "以下のコマンドでモデルをインストールしてください:" ++ LF
  ++ "ollama pull llama3.1:8b".
Definition msg_model_loading : string :=
  "モデルの読み込みエラーです。しばらく待ってから再試行してください。".
Definition msg_engine_unavailable : string :=
  "翻訳エンジンが利用できません。" ++ LF ++ LF
  ++ "Ollamaを起動してください:" ++ LF ++ "ollama serve".
Definition msg_raw (error : string) : string := "エラー: " ++ error.

(** ** detectLanguageAndTranslate *)

Section Handle.

Local Open Scope string_scope.

Variable env : Env.
(** The state variables as the closure sees them: the values of the render
    the function belongs to, whatever the setters do meanwhile. *)
Variable cl : AppState.
Variable text : string.

(** Lines 255-266: choose the engine for language detection. *)
Definition detect : M string :=
  if useMLEngine cl && mlEngineHealthy cl
  then invoke (ml_detect_language text) (on_ml_detect_language env text)
  else invoke (detect_language text) (on_detect_language env text).

(** Lines 268-299: smart language switching based on native language. *)
Definition smart_language_switching (detectedLang : string) : M unit :=
  (if fromLang cl =? "Auto" then setFromLang detectedLang else ret tt) ;;
  let nativeLang := or_else (localStorage env "nativeLang") "Japanese" in
  set_actualFromLang detectedLang ;;
  set_actualToLang (toLang cl) ;;
  if fromLang cl =? "Auto" then
    (if detectedLang =? nativeLang then set_actualToLang "English"
     else if detectedLang =? "English" then set_actualToLang nativeLang
     else set_actualToLang nativeLang) ;;
    actualToLang <- read_frame actualToLang ;;
    setToLang actualToLang
  else if detectedLang =? toLang cl then
    (if detectedLang =? nativeLang then set_actualToLang "English"
     else set_actualToLang nativeLang) ;;
    actualToLang <- read_frame actualToLang ;;
    setToLang actualToLang
  else ret tt.

(** Lines 311-340: choose the engine for translation.  Returns
    [translatedTextResult] and [latency]. *)
Definition translate_with_best_engine : M (string * Z) :=
  actualFromLang <- read_frame actualFromLang ;;
  actualToLang <- read_frame actualToLang ;;
  if useMLEngine cl && mlEngineHealthy cl then
    mlResponse <- invoke (ml_translate text actualFromLang actualToLang)
                         (on_ml_translate env text actualFromLang actualToLang) ;;
    let translatedTextResult := translated_text mlResponse in
    let latency := latency_ms mlResponse in
    setLastTranslationLatency latency ;;
    setLastUsedEngine ml ;;
    ret (translatedTextResult, latency)
  else
    startTime <- performance_now ;;
    response <- invoke (translate text actualFromLang actualToLang)
                       (on_translate env text actualFromLang actualToLang) ;;
    let translatedTextResult := response in
    now <- performance_now ;;
    let latency := Math_round (now - startTime) in
    setLastTranslationLatency latency ;;
    setLastUsedEngine ollama ;;
    ret (translatedTextResult, latency).

(** Lines 347-365 and 398-416: save to history if enabled.  A failure of
    the command is caught and logged to the console only. *)
Definition save_to_history (translated : string) (eng : Engine) (latency : Z)
  : M unit :=
  let saveHistory :=
    match localStorage env "saveHistory" with
    | Some v => negb (v =? "false")
    | None => true
    end in
  if saveHistory && negb (blank text) && negb (blank translated) then
    try_catch
      (let historyPath :=
         match localStorage env "historyPath" with
         | Some p => if truthy p then Some p else None
         | None => None
         end in
       actualFromLang <- read_frame actualFromLang ;;
       actualToLang <- read_frame actualToLang ;;
       let entry :=
         {| sourceText := text; h_translatedText := translated;
            fromLanguage := actualFromLang; toLanguage := actualToLang;
            engine := eng;
            latencyMs := if (0 <? latency)%Z then Some latency else None;
            historyPath := historyPath |} in
       invoke (save_translation_history entry)
              (on_save_translation_history env entry))
      (fun _ => ret tt)
  else ret tt.

(** Lines 367-373: limit cache size. *)
Definition limit_cache_size : M unit :=
  size <- cache_size ;;
  if (100 <? size)%Z then
    firstKey <- cache_first_key ;;
    match firstKey with
    | Some k => if truthy k then cache_delete k else ret tt
    | None => ret tt
    end
  else ret tt.

(** Lines 254-373: the [try] block.  Its early [return] on a cache hit is
    the first branch of the [match]. *)
Definition try_block : M unit :=
  detectedLang <- detect ;;
  smart_language_switching detectedLang ;;
  actualFromLang <- read_frame actualFromLang ;;
  actualToLang <- read_frame actualToLang ;;
  set_cacheKey (text ++ "|" ++ actualFromLang ++ "|" ++ actualToLang) ;;
  cacheKey <- read_frame cacheKey ;;
  cached <- cache_get cacheKey ;;
  match cached with
  | Some (String c cs) => setTranslatedText (String c cs)
  | _ =>
      setIsTranslating true ;;
      r <- translate_with_best_engine ;;
      let translatedTextResult := fst r in
      let latency := snd r in
      setTranslatedText translatedTextResult ;;
      cache_set cacheKey translatedTextResult ;;
      save_to_history translatedTextResult
        (if useMLEngine cl && mlEngineHealthy cl then ml else ollama) latency ;;
      limit_cache_size
  end.

(** Lines 379-422: try fallback to Ollama if ML engine failed.  Returns
    [true] when the function returns from inside it. *)
Definition fallback_to_ollama : M bool :=
  if useMLEngine cl && mlEngineHealthy cl && isHealthy cl then
    try_catch
      (startTime <- performance_now ;;
       actualFromLang <- read_frame actualFromLang ;;
       actualToLang <- read_frame actualToLang ;;
       response <- invoke (translate text actualFromLang actualToLang)
                          (on_translate env text actualFromLang actualToLang) ;;
       setTranslatedText response ;;
       now <- performance_now ;;
       let latency := Math_round (now - startTime) in
       setLastTranslationLatency latency ;;
       setLastUsedEngine ollama ;;
       cacheKey <- read_frame cacheKey ;;
       cache_set cacheKey response ;;
       save_to_history response ollama latency ;;
       ret true)
      (fun fallbackError => ret false)
  else ret false.

(** Lines 424-437: the message shown when no translation was obtained. *)
Definition errorMessage (error : JsValue) : string :=
  match error with
  | JsString e =>
      if includes "Cannot connect to Ollama" e then msg_cannot_connect
      else if includes "No suitable model available" e then msg_no_model
      else if includes "model" e then msg_model_loading
      else msg_raw e
  | JsObject =>
      if negb (isHealthy cl) && negb (mlEngineHealthy cl)
      then msg_engine_unavailable
      else msg_default
  end.

(** Lines 374-439: the [catch] block. *)
Definition catch_block (error : JsValue) : M unit :=
  returned <- fallback_to_ollama ;;
  if returned then ret tt else setTranslatedText (errorMessage error).

(** Lines 246-443. *)
Definition detectLanguageAndTranslate_body : M unit :=
  if blank text then ret tt
  else try_finally (try_catch try_block catch_block) (setIsTranslating false).

End Handle.

(** The machine an invocation starts from: nothing logged, and the [let]
    variables as lines 250-252 initialise them. *)
Definition start (st : AppState) (now : Q) : Machine :=
  {| state := st; clock := now; events := [];
     frame := {| actualFromLang := fromLang st; actualToLang := toLang st;
                 cacheKey := "" |} |}.

(** One invocation, from the React state [st] at wall-clock time [now]: the
    machine it leaves behind, with the new React state, the clock, the log of
    this invocation and the final values of the three [let] variables. *)
Definition detectLanguageAndTranslate
  (env : Env) (text : string) (st : AppState) (now : Q) : Machine :=
  snd (detectLanguageAndTranslate_body env st text (start st now)).

(** ** Vocabulary of the statements *)

(** The native language the function reads from [localStorage]. *)
Definition nativeLang (env : Env) : string :=
  or_else (localStorage env "nativeLang") "Japanese".

(** The answer to the detection command the function issues. *)
Definition detection (env : Env) (st : AppState) (text : string)
  : JsValue + string :=
  outcome (if useMLEngine st && mlEngineHealthy st
           then on_ml_detect_language env text
           else on_detect_language env text).

Definition is_translate_call (ev : Event) : bool :=
  match ev with
  | Invoked (translate _ _ _) | Invoked (ml_translate _ _ _) => true
  | _ => false
  end.

Definition is_ml_call (ev : Event) : bool :=
  match ev with
  | Invoked (ml_translate _ _ _) | Invoked (ml_detect_language _) => true
  | _ => false
  end.

Definition is_history_call (ev : Event) : bool :=
  match ev with
  | Invoked (save_translation_history _) => true
  | _ => false
  end.

(** The translation a backend call of the log produced, if it produced one. *)
Definition translation_of (env : Env) (ev : Event) : option string :=
  match ev with
  | Invoked (translate text f t) =>
      match outcome (on_translate env text f t) with
      | inr r => Some r
      | inl _ => None
      end
  | Invoked (ml_translate text f t) =>
      match outcome (on_ml_translate env text f t) with
      | inr r => Some (translated_text r)
      | inl _ => None
      end
  | _ => None
  end.



(** What [limit_cache_size] leaves of a cache. *)
Definition limited (c : JsMap.t) : JsMap.t :=
  if 100 <? JsMap.size c then
    match JsMap.first_key c with
    | Some k => if truthy k then JsMap.delete k c else c
    | None => c
    end
  else c.

(** Every translate command of a log is for this text and language pair. *)
Definition translate_calls_use (text f t : string) (evs : list Event) : Prop :=
  forall ev, In ev evs -> is_translate_call ev = true ->
    ev = Invoked (translate text f t) \/ ev = Invoked (ml_translate text f t).

(** ** Concrete scenarios *)

Definition resolves {A} (ms : Z) (a : A) : Reply A :=
  {| elapsed := inject_Z ms; outcome := inr a |}.

Definition rejects {A} (ms : Z) (e : JsValue) : Reply A :=
  {| elapsed := inject_Z ms; outcome := inl e |}.

(** [localStorage] holding the native language only. *)
Definition storage_with_native (native : string) (key : string)
  : option string :=
  if (key =? "nativeLang")%string then Some native else None.

(** A backend whose baseline engine detects [detected] and translates every
    text to [translated], and whose ML engine answers the same with a
    reported latency of 7 ms for a call that takes 250 ms. *)
Definition answering (native detected translated : string) : Env :=
  {| on_ml_detect_language := fun _ => resolves 3 detected;
     on_detect_language := fun _ => resolves 40 detected;
     on_ml_translate := fun _ _ _ =>
       resolves 250 {| translated_text := translated; latency_ms := 7 |};
     on_translate := fun _ _ _ => resolves 900 translated;
     on_save_translation_history := fun _ => resolves 1 tt;
     localStorage := storage_with_native native |}.

(** The state of [App] with nothing translated yet. *)
Definition idle (from to : string) (ollamaUp mlUp preferML : bool)
  (cache : JsMap.t) : AppState :=
  {| translatedText := ""; fromLang := from; toLang := to;
     isTranslating := false; isHealthy := ollamaUp; mlEngineHealthy := mlUp;
     useMLEngine := preferML; translationCache := cache;
     lastTranslationLatency := None; lastUsedEngine := None |}.

(** ML preferred and healthy, its translate command rejected after 250 ms,
    Ollama healthy and answering. *)
Definition ml_failing : Env :=
  {| on_ml_detect_language := fun _ => resolves 3 "English";
     on_detect_language := fun _ => resolves 40 "English";
     on_ml_translate := fun _ _ _ => rejects 250 (JsString "ML engine error");
     on_translate := fun _ _ _ => resolves 900 "konnichiwa";
     on_save_translation_history := fun _ => resolves 1 tt;
     localStorage := storage_with_native "Japanese" |}.

(** Both engines reject their translate command. *)
Definition all_failing : Env :=
  {| on_ml_detect_language := fun _ => resolves 3 "English";
     on_detect_language := fun _ => resolves 40 "English";
     on_ml_translate := fun _ _ _ => rejects 250 (JsString "ML engine error");
     on_translate := fun _ _ _ =>
       rejects 900 (JsString "Cannot connect to Ollama at localhost");
     on_save_translation_history := fun _ => resolves 1 tt;
     localStorage := storage_with_native "Japanese" |}.

(** ML preferred, both engines flagged healthy, ML detection rejected. *)
Definition ml_detection_failing : Env :=
  {| on_ml_detect_language := fun _ => rejects 3 (JsString "ML engine error");
     on_detect_language := fun _ => resolves 40 "English";
     on_ml_translate := fun _ _ _ =>
       resolves 250 {| translated_text := "konnichiwa"; latency_ms := 7 |};
     on_translate := fun _ _ _ => resolves 900 "konnichiwa";
     on_save_translation_history := fun _ => resolves 1 tt;
     localStorage := storage_with_native "Japanese" |}.


(** Ollama rejects its detection command with an error object; its
    translate command would answer. *)
Definition detection_failing : Env :=
  {| on_ml_detect_language := fun _ => resolves 3 "English";
     on_detect_language := fun _ => rejects 40 JsObject;
     on_ml_translate := fun _ _ _ =>
       resolves 250 {| translated_text := "konnichiwa"; latency_ms := 7 |};
     on_translate := fun _ _ _ => resolves 900 "konnichiwa";
     on_save_translation_history := fun _ => resolves 1 tt;
     localStorage := storage_with_native "Japanese" |}.

(** A cache of [n] entries, inserted in the order of their number. *)
Definition numbered (n : nat) : string * string :=
  (("text" ++ NilEmpty.string_of_uint (Nat.to_uint n) ++ "|English|Japanese")
     %string,
   "translation"%string).

Definition cache_of_size (n : nat) : JsMap.t := map numbered (seq 0 n).

(** ** More vocabulary: history entries, command counts, key format *)

(** [localStorage.getItem('saveHistory') !== 'false'] (lines 348 and 399). *)
Definition history_enabled (env : Env) : bool :=
  match localStorage env "saveHistory" with
  | Some v => negb (v =? "false")%string
  | None => true
  end.

(** The entry lines 352-360 and 403-411 pass to [save_translation_history]. *)
Definition history_entry (env : Env) (text translated f t : string)
  (eng : Engine) (latency : Z) : HistoryEntry :=
  {| sourceText := text; h_translatedText := translated;
     fromLanguage := f; toLanguage := t; engine := eng;
     latencyMs := if 0 <? latency then Some latency else None;
     historyPath := match localStorage env "historyPath" with
                    | Some p => if truthy p then Some p else None
                    | None => None
                    end |}.

Definition is_detect_call (ev : Event) : bool :=
  match ev with
  | Invoked (detect_language _) | Invoked (ml_detect_language _) => true
  | _ => false
  end.

Definition is_ollama_translate (ev : Event) : bool :=
  match ev with
  | Invoked (translate _ _ _) => true
  | _ => false
  end.

Definition is_ml_translate (ev : Event) : bool :=
  match ev with
  | Invoked (ml_translate _ _ _) => true
  | _ => false
  end.

(** How many events of a log satisfy [p]. *)
Definition count (p : Event -> bool) (evs : list Event) : nat :=
  length (filter p evs).

(** The string holds no ["|"], the delimiter of the cache key (line 302). *)
Fixpoint bar_free (s : string) : bool :=
  match s with
  | EmptyString => true
  | String c rest => negb (c =? "|")%char && bar_free rest
  end.

(** ** The rest of [App]: health probes, native language, triggers, swap *)

Definition with_isHealthy (v : bool) (s : AppState) : AppState :=
  {| translatedText := translatedText s; fromLang := fromLang s;
     toLang := toLang s; isTranslating := isTranslating s; isHealthy := v;
     mlEngineHealthy := mlEngineHealthy s; useMLEngine := useMLEngine s;
     translationCache := translationCache s;
     lastTranslationLatency := lastTranslationLatency s;
     lastUsedEngine := lastUsedEngine s |}.




(** Lines 225-233, [checkOllamaHealth], with the answer of
    [check_ollama_health]: a rejection counts as unhealthy. *)
Definition checkOllamaHealth (reply : JsValue + bool) (s : AppState)
  : AppState :=
  match reply with
  | inr healthy => with_isHealthy healthy s
  | inl _ => with_isHealthy false s
  end.


(** The content of [localStorage], and [setItem]. *)
Definition Storage : Type := string -> option string.

Definition setItem (key value : string) (ls : Storage) : Storage :=
  fun k => if (k =? key)%string then Some value else ls k.

Definition with_localStorage (ls : Storage) (env : Env) : Env :=
  {| on_ml_detect_language := on_ml_detect_language env;
     on_detect_language := on_detect_language env;
     on_ml_translate := on_ml_translate env;
     on_translate := on_translate env;
     on_save_translation_history := on_save_translation_history env;
     localStorage := ls |}.

(** [SettingsScreen.tsx], lines 155-158, 170-173 and 190-193: what
    [handleLanguageChange], [handleHistoryToggle] and
    [handleHistoryPathChange] leave in [localStorage] (the state they also
    set is only displayed by the settings screen). *)
Definition handleLanguageChange (langCode : string) (ls : Storage)
  : Storage :=
  setItem "nativeLang" langCode ls.

Definition handleHistoryToggle (enabled : bool) (ls : Storage) : Storage :=
  setItem "saveHistory" (if enabled then "true" else "false") ls.

Definition handleHistoryPathChange (path : string) (ls : Storage)
  : Storage :=
  setItem "historyPath" path ls.

(** A [setTimeout] not yet fired or cleared: when it is due, and the text
    its callback passes to [translateText]. *)
Record Timer : Type := {
  deadline : Q;
  pending_text : string
}.

(** [App] with the state variables the trigger code of lines 143-223 and
    449-465 reads or writes besides those of [AppState], and the pending
    timer of the effect on [inputText]. *)
Record Ui : Type := {
  core : AppState;
  inputText : string;
  autoTranslate : bool;
  lastClipboard : string;
  showLanguageSetup : bool;
  timer : option Timer
}.

(** A call [translateText(text)], with the time it is made at. *)
Definition Call : Type := (Q * string)%type.

Definition with_core (v : AppState) (ui : Ui) : Ui :=
  {| core := v; inputText := inputText ui; autoTranslate := autoTranslate ui;
     lastClipboard := lastClipboard ui;
     showLanguageSetup := showLanguageSetup ui; timer := timer ui |}.

Definition with_inputText (v : string) (ui : Ui) : Ui :=
  {| core := core ui; inputText := v; autoTranslate := autoTranslate ui;
     lastClipboard := lastClipboard ui;
     showLanguageSetup := showLanguageSetup ui; timer := timer ui |}.

Definition with_lastClipboard (v : string) (ui : Ui) : Ui :=
  {| core := core ui; inputText := inputText ui;
     autoTranslate := autoTranslate ui; lastClipboard := v;
     showLanguageSetup := showLanguageSetup ui; timer := timer ui |}.

Definition with_showLanguageSetup (v : bool) (ui : Ui) : Ui :=
  {| core := core ui; inputText := inputText ui;
     autoTranslate := autoTranslate ui; lastClipboard := lastClipboard ui;
     showLanguageSetup := v; timer := timer ui |}.

Definition with_timer (v : option Timer) (ui : Ui) : Ui :=
  {| core := core ui; inputText := inputText ui;
     autoTranslate := autoTranslate ui; lastClipboard := lastClipboard ui;
     showLanguageSetup := showLanguageSetup ui; timer := v |}.

(** Lines 122-141: the initial values of the state variables, read from
    [localStorage]. *)
Definition initial (ls : Storage) : Ui :=
  {| core :=
       {| translatedText := ""; fromLang := "Auto";
          toLang := or_else (ls "nativeLang"%string) "Japanese";
          isTranslating := false; isHealthy := false;
          mlEngineHealthy := false; useMLEngine := false;
          translationCache := [];
          lastTranslationLatency := None; lastUsedEngine := None |};
     inputText := ""; autoTranslate := false; lastClipboard := "";
     showLanguageSetup := match ls "nativeLang"%string with
                          | Some v => negb (truthy v)
                          | None => true
                          end;
     timer := None |}.

(** Lines 461-465, [setupNativeLanguage]. *)
Definition setupNativeLanguage (language : string) (ls : Storage) (ui : Ui)
  : Storage * Ui :=
  (setItem "nativeLang" language ls,
   with_showLanguageSetup false
     (with_core (with_toLang language (core ui)) ui)).

(** Lines 192-203, the effect on [inputText], run at time [now] after a
    render in which [inputText] changed: a blank text clears the
    translation shown, any other text starts the 500 ms timer. *)
Definition inputText_effect (now : Q) (ui : Ui) : Ui :=
  if blank (inputText ui) then
    with_core (with_translatedText "" (core ui)) ui
  else
    with_timer (Some {| deadline := (now + 500)%Q;
                        pending_text := inputText ui |}) ui.

(** [setInputText(text)] and the render that follows.  When the text is the
    one already held the dependency of the effect is unchanged and nothing
    runs; otherwise the cleanup of the previous effect clears its timer
    (line 202) and the effect runs again. *)
Definition setInputText (now : Q) (text : string) (ui : Ui) : Ui :=
  if (text =? inputText ui)%string then ui
  else inputText_effect now (with_timer None (with_inputText text ui)).

(** Time passes until [t]: a timer due by then fires and calls
    [translateText] with the text it holds (line 199). *)
Definition timer_due (t : Q) (ui : Ui) : Ui * list Call :=
  match timer ui with
  | Some tm =>
      if Qle_bool (deadline tm) t
      then (with_timer None ui, [(deadline tm, pending_text tm)])
      else (ui, [])
  | None => (ui, [])
  end.

(** An edit of the source text at time [fst edit], after whatever timer was
    due by then; the calls made so far are accumulated. *)
Definition type_at (acc : Ui * list Call) (edit : Q * string)
  : Ui * list Call :=
  let due := timer_due (fst edit) (fst acc) in
  (setInputText (fst edit) (snd edit) (fst due), (snd acc ++ snd due)%list).

Definition typing (edits : list (Q * string)) (acc : Ui * list Call)
  : Ui * list Call :=
  fold_left type_at edits acc.

(** Edits in quick succession: each comes less than 500 ms after the one
    before and changes the text. *)
Fixpoint burst (previous : option Q) (shown : string)
  (edits : list (Q * string)) : Prop :=
  match edits with
  | [] => True
  | (t, text) :: rest =>
      match previous with
      | Some p => (p <= t /\ t < p + 500)%Q
      | None => True
      end
      /\ text <> shown
      /\ burst (Some t) text rest
  end.

(** The timer an edit at time [p] leaves behind. *)
Definition settled (p : option Q) (ui : Ui) : Prop :=
  match p with
  | Some p0 =>
      timer ui = if blank (inputText ui) then None
                 else Some {| deadline := (p0 + 500)%Q;
                              pending_text := inputText ui |}
  | None => timer ui = None
  end.

(** Lines 449-459, [switchLanguages], as the swap button calls it; the
    four setters take effect in one render, after which the effect on
    [inputText] runs if the text changed. *)
Definition switchLanguages (now : Q) (ui : Ui) : Ui :=
  if negb (fromLang (core ui) =? "Auto")%string then
    let tempLang := fromLang (core ui) in
    let tempText := inputText ui in
    setInputText now (translatedText (core ui))
      (with_core
         (with_translatedText tempText
            (with_toLang tempLang
               (with_fromLang (toLang (core ui)) (core ui)))) ui)
  else ui.

(** Lines 209-219, [checkClipboard], with the answer of
    [get_clipboard_text]; a rejection is logged to the console only. *)
Definition checkClipboard (now : Q) (reply : JsValue + string) (ui : Ui)
  : Ui :=
  match reply with
  | inr clipboardText =>
      if truthy clipboardText
         && negb (clipboardText =? lastClipboard ui)%string
         && negb (blank clipboardText)
      then setInputText now clipboardText
             (with_lastClipboard clipboardText ui)
      else ui
  | inl _ => ui
  end.

(** Lines 206-223: the polling interval exists only while auto mode is
    on. *)
Definition clipboard_interval (now : Q) (reply : JsValue + string) (ui : Ui)
  : Ui :=
  if autoTranslate ui then checkClipboard now reply ui else ui.

(** Lines 148-159, the listener of [translate-shortcut], with the answer
    of [get_clipboard_text]. *)
Definition on_translate_shortcut (now : Q) (reply : JsValue + string)
  (ui : Ui) : Ui * list Call :=
  match reply with
  | inr clipboardText =>
      if truthy clipboardText
      then (setInputText now clipboardText ui, [(now, clipboardText)])
      else (ui, [])
  | inl _ => (ui, [])
  end.

(** Lines 479-483, [onLoadTranslation] of the history screen. *)
Definition onLoadTranslation (now : Q) (sourceText : string) (ui : Ui)
  : Ui * list Call :=
  (setInputText now sourceText ui, [(now, sourceText)]).

(** A screen on which the user has typed [text] and sees [shown] as its
    translation, source language [from], target [to]. *)
Definition showing (from to text shown : string) : Ui :=
  {| core := with_translatedText shown (idle from to true false false []);
     inputText := text; autoTranslate := true; lastClipboard := "";
     showLanguageSetup := false; timer := None |}.

(** * Proofs *)

(** ** The model on small inputs *)

(** [trim] leaves nothing of the empty string, of ASCII white space and of an
    ideographic space; it leaves the letter of [" a "]. *)
Example blank_examples :
  blank "" = true /\ blank (" " ++ LF) = true /\ blank "　" = true
  /\ blank " a " = false.
Proof. repeat split. Qed.

(** The messages of lines 425-437 on a connection error, a missing model, a
    model error, another string, and an error object with both engines
    flagged unhealthy. *)
Example errorMessage_examples :
  let st := idle "Auto" "Japanese" false false false [] in
  errorMessage st (JsString "Cannot connect to Ollama: connection refused")
  = msg_cannot_connect
  /\ errorMessage st (JsString "No suitable model available") = msg_no_model
  /\ errorMessage st (JsString "failed to load model") = msg_model_loading
  /\ errorMessage st (JsString "timeout") = msg_raw "timeout"
  /\ errorMessage st JsObject = msg_engine_unavailable.
Proof. repeat split. Qed.

(** The scenario of the specification: "Hello", native Japanese, Ollama in
    use.  The translation is cached under the key of the resolved pair. *)
Example hello_scenario :
  let m := detectLanguageAndTranslate
             (answering "Japanese" "English" "konnichiwa") "Hello"
             (idle "Auto" "Japanese" true false false []) 0 in
  translatedText (state m) = "konnichiwa"
  /\ fromLang (state m) = "English" /\ toLang (state m) = "Japanese"
  /\ translationCache (state m) = [("Hello|English|Japanese", "konnichiwa")]
  /\ lastUsedEngine (state m) = Some ollama
  /\ lastTranslationLatency (state m) = Some 900
  /\ isTranslating (state m) = false.
Proof. vm_compute. repeat split. Qed.

(** ** The cache operations *)

Module JsMapFacts.
Import JsMap.


Lemma get_set_other k k' v m : k' <> k -> get k (set k' v m) = get k m.
Proof.
  intros Hne. induction m as [|[k0 v0] m IH]; simpl.
  - destruct (String.eqb_spec k' k); [contradiction | reflexivity].
  - destruct (String.eqb_spec k0 k') as [->|Hne0]; simpl.
    + destruct (String.eqb_spec k' k); [contradiction | reflexivity].
    + destruct (String.eqb_spec k0 k); [reflexivity | exact IH].
Qed.

(** A key the map does not hold is added at the end. *)
Lemma set_fresh k v m : get k m = None -> set k v m = (m ++ [(k, v)])%list.
Proof.
  induction m as [|[k' v'] m IH]; simpl; intros H; [reflexivity|].
  destruct (String.eqb_spec k' k); [discriminate|].
  now rewrite IH.
Qed.

(** A key the map holds keeps its place, and the map its size. *)
Lemma length_set_held k v m :
  get k m <> None -> length (set k v m) = length m.
Proof.
  induction m as [|[k' v'] m IH]; simpl; intros H; [contradiction|].
  destruct (String.eqb_spec k' k); simpl; [reflexivity|].
  now rewrite IH.
Qed.

Lemma get_delete_other k k' m : k' <> k -> get k (delete k' m) = get k m.
Proof.
  intros Hne. induction m as [|[k0 v0] m IH]; simpl; [reflexivity|].
  destruct (String.eqb_spec k0 k') as [->|Hne0]; simpl.
  - destruct (String.eqb_spec k' k); [contradiction | reflexivity].
  - destruct (String.eqb_spec k0 k); [reflexivity | exact IH].
Qed.

End JsMapFacts.

(** ** Running the function symbolically *)

Lemma limit_cache_size_run m :
  limit_cache_size m =
  (inr tt,
   {| state := with_translationCache (limited (translationCache (state m)))
                 (state m);
      clock := clock m; events := events m; frame := frame m |}).
Proof.
  unfold limit_cache_size, limited, bind, cache_size, cache_first_key,
    cache_delete, update_app, ret.
  destruct m as [[] ? ? ?]; cbn.
  destruct (100 <? _); [|reflexivity].
  destruct (JsMap.first_key _) as [k|]; [|reflexivity].
  destruct (truthy k); reflexivity.
Qed.

(** Saving to history never throws and touches neither the React state nor
    the [let] variables: it takes time and logs at most its own command. *)
Lemma save_to_history_run env text translated eng latency m :
  exists q evs,
    save_to_history env text translated eng latency m =
    (inr tt, {| state := state m; clock := q; events := events m ++ evs;
                frame := frame m |})
    /\ forallb is_history_call evs = true.
Proof.
  unfold save_to_history.
  destruct (_ && _ && _).
  - unfold try_catch, bind, read_frame, invoke, ret.
    match goal with
    | |- context [on_save_translation_history env ?e] =>
        destruct (on_save_translation_history env e) as [el [err|[]]]
    end; cbn; eexists _, [_]; split; reflexivity.
  - exists (clock m), []. rewrite app_nil_r. destruct m; split; reflexivity.
Qed.

Lemma history_call_only evs ev :
  forallb is_history_call evs = true -> In ev evs -> is_history_call ev = true.
Proof. intros H Hin. rewrite forallb_forall in H. auto. Qed.

(** Unfolds the function and the monad, leaving the tests it branches on. *)
Ltac run :=
  cbv beta iota zeta delta
    [detectLanguageAndTranslate detectLanguageAndTranslate_body start
     try_block catch_block fallback_to_ollama translate_with_best_engine
     smart_language_switching detect detection nativeLang
     try_finally try_catch bind ret throw invoke emit update_app update_frame
     read_frame performance_now
     cache_get cache_set cache_delete cache_size cache_first_key
     setTranslatedText setFromLang setToLang setIsTranslating
     setLastTranslationLatency setLastUsedEngine
     set_actualFromLang set_actualToLang set_cacheKey
     with_translatedText with_fromLang with_toLang with_isTranslating
     with_translationCache with_lastTranslationLatency with_lastUsedEngine
     state clock events frame actualFromLang actualToLang cacheKey
     translatedText fromLang toLang isTranslating isHealthy mlEngineHealthy
     useMLEngine translationCache lastTranslationLatency lastUsedEngine
     fst snd andb negb];
  cbn [List.app].

(** One branching point of the run: a block with a known effect, or the
    innermost test the goal still matches on. *)
Ltac step :=
  match goal with
  | |- context [limit_cache_size ?m] => rewrite (limit_cache_size_run m)
  | |- context [save_to_history ?e ?t ?tr ?g ?l ?m] =>
      let q := fresh "q" in
      let evs := fresh "evs" in
      let E := fresh "E" in
      let Hevs := fresh "Hevs" in
      destruct (save_to_history_run e t tr g l m) as (q & evs & E & Hevs);
      rewrite E; clear E
  | |- context [match ?x with _ => _ end] =>
      lazymatch x with
      | context [match _ with _ => _ end] => fail
      | context [limit_cache_size] => fail
      | context [save_to_history] => fail
      | _ => destruct x eqn:?
      end
  end.

Ltac exec := run; repeat (step; run; try discriminate).

(** Reads the log: membership in a concrete log is a choice of one of its
    events; history calls are nothing else. *)
Ltac read_log :=
  repeat match goal with
    | H : _ /\ _ |- _ => destruct H
    | H : False |- _ => contradiction H
    | H : false = true |- _ => discriminate H
    | H : In _ [] |- _ => contradiction H
    | H : In _ (_ :: _) |- _ => destruct H as [H|H]
    | H : In _ (_ ++ _) |- _ => apply in_app_or in H; destruct H as [H|H]
    | Hevs : forallb is_history_call ?evs = true, H : In ?ev ?evs |- _ =>
        apply (history_call_only _ _ Hevs) in H;
        first [ discriminate H
              | is_var ev; destruct ev as [[]|]; try discriminate H;
                cbn [is_translate_call is_ml_call translation_of] in * ]
    | H : Invoked _ = Invoked _ |- _ => injection H as H; subst
    | H : translate _ _ _ = translate _ _ _ |- _ => injection H as ? ? ?; subst
    | H : ml_translate _ _ _ = ml_translate _ _ _ |- _ =>
        injection H as ? ? ?; subst
    | H : @eq Event _ _ |- _ => discriminate H
    | H : @eq Command _ _ |- _ => discriminate H
    | H : @eq Event _ ?ev |- _ =>
        is_var ev; subst ev;
        cbn [is_translate_call is_ml_call translation_of] in *
    end.

(** Rewrites the tests of the goal with what the run found them to be. *)
Ltac booleans :=
  repeat match goal with
    | H : ?b = true |- context [if ?b then _ else _] => rewrite H
    | H : ?b = false |- context [if ?b then _ else _] => rewrite H
    end.

(** String comparisons as equalities. *)
Ltac strings :=
  repeat match goal with
    | H : (_ =? _)%string = true |- _ => apply String.eqb_eq in H
    | H : (_ =? _)%string = false |- _ => apply String.eqb_neq in H
    end.

(** Uses what the run learned about a reply in the hypotheses. *)
Ltac read_replies :=
  repeat match goal with
    | E : outcome ?x = _, H : context [outcome ?x] |- _ =>
        rewrite E in H; cbn [translation_of] in H
    | H : inr _ = inl _ |- _ => discriminate H
    | H : inl _ = inr _ |- _ => discriminate H
    | H : inr _ = inr _ |- _ => injection H as H; subst
    | H : inl _ = inl _ |- _ => injection H as H; subst
    end.

(** Projections of the machine a run ended in. *)
Ltac fields :=
  cbn [state clock events frame actualFromLang actualToLang cacheKey
       translatedText fromLang toLang isTranslating isHealthy mlEngineHealthy
       useMLEngine translationCache lastTranslationLatency lastUsedEngine] in *.

(** Runs the invocation the goal is about, with the rest of the goal set
    aside, and states the goal on each machine it can end in. *)
Ltac exec_run :=
  match goal with
  | |- context [detectLanguageAndTranslate ?e ?t ?s ?n] =>
      let Q := fresh "Q" in
      pattern (detectLanguageAndTranslate e t s n);
      match goal with |- ?P _ => set (Q := P) end;
      exec; subst Q; cbv beta; fields
  end.

(** ** Wall-clock latency *)


(** ** Language-pair resolution *)

(** Once detection has answered [d], the effective pair is settled: the rest
    of the function neither changes it nor the languages shown. *)
Lemma after_detection env text st now d :
  let m := detectLanguageAndTranslate env text st now in
  blank text = false ->
  detection env st text = inr d ->
  actualFromLang (frame m) = d
  /\ cacheKey (frame m)
     = (text ++ "|" ++ d ++ "|" ++ actualToLang (frame m))%string
  /\ fromLang (state m)
     = (if (fromLang st =? "Auto")%string then d else fromLang st)
  /\ toLang (state m) = actualToLang (frame m)
  /\ (fromLang st = "Auto" \/ d = toLang st ->
      actualToLang (frame m)
      = if (d =? nativeLang env)%string then "English" else nativeLang env)
  /\ (fromLang st <> "Auto" -> d <> toLang st ->
      actualToLang (frame m) = toLang st)
  /\ translate_calls_use text d (actualToLang (frame m)) (events m).
Proof.
  intros m; subst m. unfold detection, nativeLang, translate_calls_use.
  destruct st as [? ? ? ? [] [] [] ? ? ?]; fields; cbn [andb].
  all: exec_run.
  all: intros; read_replies; booleans.
  all: repeat split; try reflexivity.
  all: intros; strings; try tauto; try congruence.
  all: read_log; auto.
Qed.

(** X1.  Whenever detection answers, the effective source and target
    differ, unless English is both the detected and the native language. *)
Theorem resolved_pair_distinct env text st now d :
  let m := detectLanguageAndTranslate env text st now in
  blank text = false ->
  detection env st text = inr d ->
  ~ (d = "English" /\ nativeLang env = "English") ->
  actualFromLang (frame m) <> actualToLang (frame m).
Proof.
  intros m Hb Hd Hen.
  destruct (after_detection env text st now d Hb Hd)
    as (Hf & _ & _ & _ & Hswitch & Hkeep & _).
  fold m in Hf, Hswitch, Hkeep. rewrite Hf.
  destruct (string_dec (fromLang st) "Auto") as [Ha|Ha];
    [|destruct (string_dec d (toLang st)) as [Ht|Ht]].
  3: { rewrite (Hkeep Ha Ht). exact Ht. }
  all: rewrite Hswitch by tauto.
  all: destruct (String.eqb_spec d (nativeLang env)) as [Hn|Hn];
    [intros He; apply Hen; split; congruence | exact Hn].
Qed.

(** Native Japanese, a text detected as Japanese: Japanese to English. *)
Lemma resolved_pair_distinct_witness :
  let m := detectLanguageAndTranslate
             (answering "Japanese" "Japanese" "Hello") "konnichiwa"
             (idle "Auto" "Japanese" true false false []) 0 in
  actualFromLang (frame m) <> actualToLang (frame m).
Proof.
  cbv zeta.
  apply (resolved_pair_distinct (answering "Japanese" "Japanese" "Hello")
           "konnichiwa" (idle "Auto" "Japanese" true false false []) 0
           "Japanese" eq_refl eq_refl).
  intros [H _]. discriminate H.
Defined.

(** C1, at the failing input.  With English as native language, source [Auto]
    and a text detected as English, the function resolves the pair (English,
    English): it asks the backend to translate from English to English and
    caches the answer under that pair.  The claim (the resolved pair always
    has different source and target, English native included) does not hold
    on this input. *)
Theorem english_native_resolves_equal_pair :
  let m := detectLanguageAndTranslate (answering "English" "English" "Hello")
             "Hello" (idle "Auto" "English" true false false []) 0 in
  actualFromLang (frame m) = "English"
  /\ actualToLang (frame m) = "English"
  /\ cacheKey (frame m) = "Hello|English|English"
  /\ In (Invoked (translate "Hello" "English" "English")) (events m).
Proof. vm_compute. repeat split; auto. Qed.

(** C8.  With source [Auto] and a detection that answers [d]: the effective
    source is [d]; the target, both the one used and the one shown, is
    English when [d] is the native language, the native language when [d] is
    English, and the native language for any other [d]. *)
Theorem auto_target_resolution env text st now d :
  let m := detectLanguageAndTranslate env text st now in
  blank text = false ->
  fromLang st = "Auto" ->
  detection env st text = inr d ->
  actualFromLang (frame m) = d
  /\ toLang (state m) = actualToLang (frame m)
  /\ (d = nativeLang env -> actualToLang (frame m) = "English")
  /\ (d = "English" -> actualToLang (frame m) = nativeLang env)
  /\ (d <> nativeLang env -> d <> "English" ->
      actualToLang (frame m) = nativeLang env).
Proof.
  intros m Hb Ha Hd.
  destruct (after_detection env text st now d Hb Hd)
    as (Hf & _ & _ & Hshown & Hswitch & _).
  fold m in Hf, Hshown, Hswitch.
  specialize (Hswitch (or_introl Ha)).
  repeat split; try assumption; rewrite Hswitch.
  - intros ->. now rewrite String.eqb_refl.
  - intros ->. destruct (String.eqb_spec "English" (nativeLang env)); congruence.
  - intros Hn _. destruct (String.eqb_spec d (nativeLang env)); congruence.
Qed.

(** The three examples of C8, native language Japanese: a Japanese text goes
    to English, an English and a Chinese text go to Japanese. *)
Lemma auto_target_resolution_witness :
  let target detected text :=
    actualToLang (frame (detectLanguageAndTranslate
                           (answering "Japanese" detected "-") text
                           (idle "Auto" "Japanese" true false false []) 0)) in
  target "Japanese" "konnichiwa" = "English"
  /\ target "English" "Hello" = "Japanese"
  /\ target "Chinese" "ni hao" = "Japanese".
Proof.
  cbv zeta. split; [|split].
  - destruct (auto_target_resolution (answering "Japanese" "Japanese" "-")
                "konnichiwa" (idle "Auto" "Japanese" true false false []) 0
                "Japanese" eq_refl eq_refl eq_refl) as (_ & _ & H & _).
    exact (H eq_refl).
  - destruct (auto_target_resolution (answering "Japanese" "English" "-")
                "Hello" (idle "Auto" "Japanese" true false false []) 0
                "English" eq_refl eq_refl eq_refl) as (_ & _ & _ & H & _).
    exact (H eq_refl).
  - destruct (auto_target_resolution (answering "Japanese" "Chinese" "-")
                "ni hao" (idle "Auto" "Japanese" true false false []) 0
                "Chinese" eq_refl eq_refl eq_refl) as (_ & _ & _ & _ & H).
    apply H; discriminate.
Defined.

(** C5, counterexample.  Declared source French, target Japanese, a text the
    backend detects as English: the engine call and the cache key use English
    as source, not the declared French. *)
Lemma declared_source_overridden_by_detection :
  let st := idle "French" "Japanese" true false false [] in
  let m := detectLanguageAndTranslate
             (answering "Japanese" "English" "konnichiwa") "Hello" st 0 in
  fromLang st <> "Auto"
  /\ fromLang st <> toLang st
  /\ actualFromLang (frame m) <> fromLang st
  /\ cacheKey (frame m) = "Hello|English|Japanese"
  /\ In (Invoked (translate "Hello" "English" "Japanese")) (events m).
Proof. vm_compute. repeat split; auto; discriminate. Qed.

(** C5, amended.  With a concrete declared source the detection command is
    still invoked, and the effective source is the detected language [d].
    When [d] differs from the current target, the pair used for every
    translate command and for the cache key is ([d], current target), and the
    declared source and target shown are left as they were: the pair is the
    declared one exactly when [d] is the declared source. *)
Theorem manual_pair_follows_detection env text st now d :
  let m := detectLanguageAndTranslate env text st now in
  blank text = false ->
  fromLang st <> "Auto" ->
  detection env st text = inr d ->
  d <> toLang st ->
  actualFromLang (frame m) = d
  /\ actualToLang (frame m) = toLang st
  /\ cacheKey (frame m) = (text ++ "|" ++ d ++ "|" ++ toLang st)%string
  /\ translate_calls_use text d (toLang st) (events m)
  /\ fromLang (state m) = fromLang st
  /\ toLang (state m) = toLang st.
Proof.
  intros m Hb Ha Hd Ht.
  destruct (after_detection env text st now d Hb Hd)
    as (Hf & Hkey & Hfrom & Hshown & _ & Hkeep & Hcalls).
  fold m in Hf, Hkey, Hfrom, Hshown, Hkeep, Hcalls.
  specialize (Hkeep Ha Ht). rewrite Hkeep in *.
  apply String.eqb_neq in Ha. rewrite Ha in Hfrom.
  repeat split; assumption.
Qed.

(** Declared pair English to Japanese and a text detected as English: the
    pair used is the declared one. *)
Lemma manual_pair_follows_detection_witness :
  let st := idle "English" "Japanese" true false false [] in
  let m := detectLanguageAndTranslate
             (answering "Japanese" "English" "konnichiwa") "Hello" st 0 in
  actualFromLang (frame m) = fromLang st
  /\ actualToLang (frame m) = toLang st
  /\ cacheKey (frame m) = "Hello|English|Japanese".
Proof.
  cbv zeta.
  destruct (manual_pair_follows_detection
              (answering "Japanese" "English" "konnichiwa") "Hello"
              (idle "English" "Japanese" true false false []) 0 "English"
              eq_refl ltac:(discriminate) eq_refl ltac:(discriminate))
    as (Hf & Ht & Hk & _).
  exact (conj Hf (conj Ht Hk)).
Defined.

(** ** Backend calls and what the request reports *)

Ltac in_log := cbn [In]; rewrite ?in_app_iff; cbn [In]; tauto.








(** ** Failures *)






(** C4, counterexample.  Ollama is the engine in use and its detection
    command is rejected: no translate command is invoked and the error
    message is shown, although the translate command would have answered. *)
Lemma detection_failure_shows_error :
  let m := detectLanguageAndTranslate detection_failing "Hello"
             (idle "Auto" "Japanese" true false false []) 0 in
  blank "Hello" = false
  /\ events m = [Invoked (detect_language "Hello"); IsTranslatingSet false]
  /\ translatedText (state m) = msg_default.
Proof. vm_compute. repeat split. Qed.

(** C4, amended.  When the detection command is rejected no pair is
    resolved: the effective pair stays the declared source and target, and
    the languages shown do not change.  Only when ML is preferred and both
    engines are flagged healthy does the function still attempt a
    translation, one Ollama translate command with that declared pair, and
    it shows the error message of the detection failure if this command is
    rejected too.  In every other configuration no translate command is
    invoked and the error message is shown. *)
Theorem detection_failure_outcome env text st now e :
  let m := detectLanguageAndTranslate env text st now in
  blank text = false ->
  detection env st text = inl e ->
  actualFromLang (frame m) = fromLang st
  /\ actualToLang (frame m) = toLang st
  /\ fromLang (state m) = fromLang st
  /\ toLang (state m) = toLang st
  /\ (useMLEngine st && mlEngineHealthy st && isHealthy st = true ->
      In (Invoked (translate text (fromLang st) (toLang st))) (events m)
      /\ (forall e',
            outcome (on_translate env text (fromLang st) (toLang st)) = inl e' ->
            translatedText (state m) = errorMessage st e))
  /\ (useMLEngine st && mlEngineHealthy st && isHealthy st = false ->
      translatedText (state m) = errorMessage st e
      /\ forall ev, In ev (events m) -> is_translate_call ev = false).
Proof.
  intros m; subst m. unfold detection.
  destruct st as [? ? ? ? [] [] [] ? ? ?]; fields; cbn [andb].
  all: exec_run.
  all: intros; read_replies; repeat split; intros; try discriminate;
    read_replies; try reflexivity; try in_log.
  all: read_log; reflexivity.
Qed.

(** ML detection rejected with both engines flagged healthy: Ollama is asked
    to translate from the unresolved source [Auto]. *)
Lemma detection_failure_outcome_witness :
  let m := detectLanguageAndTranslate ml_detection_failing "Hello"
             (idle "Auto" "Japanese" true true true []) 0 in
  actualFromLang (frame m) = "Auto"
  /\ In (Invoked (translate "Hello" "Auto" "Japanese")) (events m).
Proof.
  cbv zeta.
  destruct (detection_failure_outcome ml_detection_failing "Hello"
              (idle "Auto" "Japanese" true true true []) 0
              (JsString "ML engine error") eq_refl eq_refl)
    as (Hf & _ & _ & _ & Hfall & _).
  destruct (Hfall eq_refl) as [Hin _].
  exact (conj Hf Hin).
Defined.

(** ** Cache hits *)

Ltac read_cache :=
  repeat match goal with
    | E : JsMap.get ?k ?c = _, H : context [JsMap.get ?k ?c] |- _ =>
        rewrite E in H
    | H : Some _ = Some _ |- _ => injection H as H; subst
    | H : @eq (option string) _ _ |- _ => discriminate H
    end.

(** The run when the key is held with a non-empty value: one detection
    command, the cached text shown, and nothing else but the final
    [setIsTranslating(false)]. *)
Lemma cache_hit env text st now d v :
  let m := detectLanguageAndTranslate env text st now in
  blank text = false ->
  detection env st text = inr d ->
  JsMap.get (cacheKey (frame m)) (translationCache st) = Some v ->
  v <> "" ->
  translatedText (state m) = v
  /\ events m
     = [Invoked ((if useMLEngine st && mlEngineHealthy st
                  then ml_detect_language else detect_language) text);
        IsTranslatingSet false]
  /\ lastTranslationLatency (state m) = lastTranslationLatency st
  /\ lastUsedEngine (state m) = lastUsedEngine st
  /\ translationCache (state m) = translationCache st
  /\ isTranslating (state m) = false
  /\ isHealthy (state m) = isHealthy st
  /\ mlEngineHealthy (state m) = mlEngineHealthy st
  /\ useMLEngine (state m) = useMLEngine st.
Proof.
  intros m; subst m. unfold detection.
  destruct st as [? ? ? ? [] [] [] ? ? ?]; fields; cbn [andb].
  all: exec_run.
  all: intros; read_replies; read_cache; try congruence.
  all: repeat split; try reflexivity.
Qed.

(** C10, counterexample.  Source [Auto], the pair already cached: on the
    cache hit the declared source shown changes from [Auto] to the detected
    language, a field the claim leaves out of what is modified. *)
Lemma cache_hit_updates_declared_source :
  let st := idle "Auto" "Japanese" true false false
              [("Hello|English|Japanese", "konnichiwa")] in
  let m := detectLanguageAndTranslate
             (answering "Japanese" "English" "konnichiwa") "Hello" st 0 in
  events m = [Invoked (detect_language "Hello"); IsTranslatingSet false]
  /\ translatedText (state m) = "konnichiwa"
  /\ fromLang st = "Auto"
  /\ fromLang (state m) = "English".
Proof. vm_compute. repeat split. Qed.

(** C10, amended.  On a cache hit the state fields written are the
    translated text, the declared source (set to the detected language when
    it was [Auto]), the target language (set to the resolved target) and the
    is-translating flag, which is set to false at the end and never to
    true; the last-used engine, the last latency, the cache, the health
    flags and the engine preference keep their values, and no translate
    command is invoked. *)
Theorem cache_hit_frame env text st now d v :
  let m := detectLanguageAndTranslate env text st now in
  blank text = false ->
  detection env st text = inr d ->
  JsMap.get (cacheKey (frame m)) (translationCache st) = Some v ->
  v <> "" ->
  translatedText (state m) = v
  /\ fromLang (state m)
     = (if (fromLang st =? "Auto")%string then d else fromLang st)
  /\ toLang (state m) = actualToLang (frame m)
  /\ lastUsedEngine (state m) = lastUsedEngine st
  /\ lastTranslationLatency (state m) = lastTranslationLatency st
  /\ translationCache (state m) = translationCache st
  /\ isHealthy (state m) = isHealthy st
  /\ mlEngineHealthy (state m) = mlEngineHealthy st
  /\ useMLEngine (state m) = useMLEngine st
  /\ isTranslating (state m) = false
  /\ ~ In (IsTranslatingSet true) (events m)
  /\ (forall ev, In ev (events m) -> is_translate_call ev = false).
Proof.
  intros m Hb Hd Hget Hv.
  destruct (after_detection env text st now d Hb Hd)
    as (_ & _ & Hfrom & Hto & _).
  destruct (cache_hit env text st now d v Hb Hd Hget Hv)
    as (Htext & Hlog & Hlat & Heng & Hcache & Hflag & Hup & Hml & Hpref).
  fold m in Hfrom, Hto, Htext, Hlog, Hlat, Heng, Hcache, Hflag, Hup, Hml,
    Hpref.
  repeat split; try assumption.
  - rewrite Hlog. intros [H|[H|[]]]; discriminate H.
  - rewrite Hlog. intros ev [<-|[<-|[]]]; [|reflexivity].
    now destruct (useMLEngine st && mlEngineHealthy st).
Qed.

(** A request already cached, after an earlier Ollama translation that took
    900 ms. *)
Lemma cache_hit_frame_witness :
  let st :=
    {| translatedText := "old"; fromLang := "English"; toLang := "Japanese";
       isTranslating := false; isHealthy := true; mlEngineHealthy := false;
       useMLEngine := false;
       translationCache := [("Hello|English|Japanese", "konnichiwa")];
       lastTranslationLatency := Some 900; lastUsedEngine := Some ollama |} in
  let m := detectLanguageAndTranslate
             (answering "Japanese" "English" "changed") "Hello" st 0 in
  translatedText (state m) = "konnichiwa"
  /\ lastUsedEngine (state m) = Some ollama
  /\ lastTranslationLatency (state m) = Some 900
  /\ ~ In (IsTranslatingSet true) (events m).
Proof.
  cbv zeta.
  destruct (cache_hit_frame (answering "Japanese" "English" "changed") "Hello"
              {| translatedText := "old"; fromLang := "English";
                 toLang := "Japanese"; isTranslating := false;
                 isHealthy := true; mlEngineHealthy := false;
                 useMLEngine := false;
                 translationCache := [("Hello|English|Japanese", "konnichiwa")];
                 lastTranslationLatency := Some 900;
                 lastUsedEngine := Some ollama |} 0 "English" "konnichiwa"
              eq_refl eq_refl eq_refl ltac:(discriminate))
    as (Htext & _ & _ & Heng & Hlat & _ & _ & _ & _ & _ & Hnever & _).
  exact (conj Htext (conj Heng (conj Hlat Hnever))).
Defined.








(** ** The size of the cache *)

Lemma truthy_iff s : truthy s = true <-> s <> "".
Proof. destruct s; cbn; split; congruence. Qed.

(** The write of the [try] block, followed by the limit, keeps a cache of
    non-empty keys within 100 entries. *)
Lemma limited_set_bound k v c :
  JsMap.size c <= 100 ->
  (forall k', In k' (JsMap.keys c) -> k' <> "") ->
  JsMap.size (limited (JsMap.set k v c)) <= 100.
Proof.
  unfold limited, JsMap.size. intros Hsize Hkeys.
  destruct (Z.ltb_spec 100 (Z.of_nat (length (JsMap.set k v c))))
    as [Hover|]; [|assumption].
  destruct (JsMap.get k c) as [v0|] eqn:Hget.
  - rewrite JsMapFacts.length_set_held in Hover by congruence. lia.
  - rewrite (JsMapFacts.set_fresh _ _ _ Hget) in *.
    rewrite length_app in Hover. cbn [length] in Hover.
    destruct c as [|[k0 v0] c']; cbn [length] in *; [lia|].
    cbn [JsMap.first_key List.app].
    assert (truthy k0 = true) as ->.
    { apply truthy_iff, Hkeys. now left. }
    cbn [JsMap.delete]. rewrite String.eqb_refl.
    rewrite length_app. cbn [length]. lia.
Qed.

Lemma keys_set k v c k' :
  In k' (JsMap.keys (JsMap.set k v c)) -> k' = k \/ In k' (JsMap.keys c).
Proof.
  unfold JsMap.keys.
  induction c as [|[k0 v0] c IH]; cbn.
  - intros [<-|[]]. now left.
  - destruct (String.eqb_spec k0 k); cbn; [tauto|].
    intros [<-|H]; [tauto|]. destruct (IH H); tauto.
Qed.

Lemma keys_delete k c k' :
  In k' (JsMap.keys (JsMap.delete k c)) -> In k' (JsMap.keys c).
Proof.
  unfold JsMap.keys.
  induction c as [|[k0 v0] c IH]; cbn; [tauto|].
  destruct (String.eqb_spec k0 k); cbn; tauto.
Qed.

Lemma keys_limited c k : In k (JsMap.keys (limited c)) -> In k (JsMap.keys c).
Proof.
  unfold limited.
  destruct (100 <? _); [|tauto].
  destruct (JsMap.first_key c) as [k0|]; [|tauto].
  destruct (truthy k0); [apply keys_delete | tauto].
Qed.

Lemma request_key_not_empty (text f t : string) :
  (text ++ "|" ++ f ++ "|" ++ t)%string <> ""%string.
Proof. destruct text; discriminate. Qed.

(** X2.  Where the fallback cannot run (ML is not preferred, or one of the
    two engines is flagged unhealthy), an invocation keeps a cache of at
    most 100 entries with non-empty keys within that bound and with
    non-empty keys: every write is followed by the limit of lines 367-373,
    which evicts the first key. *)
Theorem cache_bound_without_fallback env text st now :
  let m := detectLanguageAndTranslate env text st now in
  useMLEngine st && mlEngineHealthy st && isHealthy st = false ->
  JsMap.size (translationCache st) <= 100 ->
  (forall k, In k (JsMap.keys (translationCache st)) -> k <> ""%string) ->
  JsMap.size (translationCache (state m)) <= 100
  /\ (forall k, In k (JsMap.keys (translationCache (state m))) ->
      k <> ""%string).
Proof.
  intros m; subst m.
  destruct st as [? ? ? ? [] [] [] ? ? ?]; fields; cbn [andb].
  all: exec_run.
  all: intros Hflags Hsize Hkeys; try discriminate Hflags.
  all: split; auto using limited_set_bound.
  all: intros k Hk; apply keys_limited, keys_set in Hk;
    destruct Hk as [->|Hk]; [apply request_key_not_empty | auto].
Qed.

(** A full cache and Ollama as the engine in use: 100 entries remain. *)
Lemma cache_bound_without_fallback_witness :
  let m := detectLanguageAndTranslate ml_failing "Hello"
             (idle "Auto" "Japanese" true false false (cache_of_size 100)) 0 in
  JsMap.size (translationCache (state m)) <= 100.
Proof.
  cbv zeta.
  apply (cache_bound_without_fallback ml_failing "Hello"
           (idle "Auto" "Japanese" true false false (cache_of_size 100)) 0).
  - reflexivity.
  - vm_compute. discriminate.
  - intros k Hk. vm_compute in Hk.
    repeat (destruct Hk as [<-|Hk]; [discriminate|]). contradiction.
Defined.

(** The same request through the [try] block: the earliest entry is evicted
    and the cache stays at 100 entries. *)
Lemma primary_write_evicts_first :
  let st := idle "Auto" "Japanese" true false false (cache_of_size 100) in
  let m := detectLanguageAndTranslate ml_failing "Hello" st 0 in
  JsMap.size (translationCache (state m)) = 100
  /\ JsMap.get "text0|English|Japanese" (translationCache (state m)) = None
  /\ JsMap.first_key (translationCache (state m))
     = Some "text1|English|Japanese"%string
  /\ JsMap.get "Hello|English|Japanese" (translationCache (state m))
     = Some "konnichiwa"%string.
Proof. vm_compute. repeat split. Qed.

(** C2, at the failing input.  The cache holds 100 entries; ML is preferred
    and healthy and its translate command is rejected; Ollama is healthy and
    answers.  The fallback writes the new entry and the function returns
    without limiting the cache: it now holds 101 entries, its earliest entry
    still first.  The claim (at most 100 entries after every completed
    invocation, the fallback path included) does not hold on this input. *)
Theorem fallback_write_exceeds_bound :
  let st := idle "Auto" "Japanese" true true true (cache_of_size 100) in
  let m := detectLanguageAndTranslate ml_failing "Hello" st 0 in
  JsMap.size (translationCache st) = 100
  /\ lastUsedEngine (state m) = Some ollama
  /\ JsMap.get "Hello|English|Japanese" (translationCache (state m))
     = Some "konnichiwa"%string
  /\ JsMap.size (translationCache (state m)) = 101
  /\ JsMap.first_key (translationCache (state m))
     = JsMap.first_key (translationCache st).
Proof. vm_compute. repeat split. Qed.

(** ** Every path of one invocation *)

(** What [save_to_history] does on a non-blank text: it sends one entry
    when history is on and the translation is not blank, nothing otherwise,
    and goes on whatever the backend answers. *)
Lemma save_to_history_sent env text translated eng latency m :
  blank text = false ->
  exists q,
    save_to_history env text translated eng latency m =
    (inr tt,
     {| state := state m; clock := q;
        events :=
          events m ++
          (if history_enabled env then
             if blank translated then []
             else [Invoked (save_translation_history
                              (history_entry env text translated
                                 (actualFromLang (frame m))
                                 (actualToLang (frame m)) eng latency))]
           else []);
        frame := frame m |}).
Proof.
  intros Htext.
  unfold save_to_history, history_enabled, history_entry. rewrite Htext.
  destruct (match localStorage env "saveHistory" with
            | Some v => negb (v =? "false")%string | None => true end) eqn:Hen;
    cbn [andb negb].
  2: { exists (clock m). rewrite app_nil_r. now destruct m. }
  destruct (blank translated) eqn:Hb; cbn [negb].
  { exists (clock m). rewrite app_nil_r. now destruct m. }
  unfold try_catch, bind, read_frame, invoke, ret.
  match goal with
  | |- context [on_save_translation_history env ?e] =>
      destruct (on_save_translation_history env e) as [el [err|[]]]
  end; cbn; eexists; reflexivity.
Qed.

(** [step], keeping the history entry that is sent. *)
Ltac step_sent :=
  match goal with
  | |- context [limit_cache_size ?m] => rewrite (limit_cache_size_run m)
  | |- context [save_to_history ?e ?t ?tr ?g ?l ?m] =>
      let q := fresh "q" in
      let E := fresh "E" in
      destruct (save_to_history_sent e t tr g l m ltac:(assumption))
        as (q & E);
      rewrite E; clear E
  | |- context [match ?x with _ => _ end] =>
      lazymatch x with
      | context [match _ with _ => _ end] => fail
      | context [limit_cache_size] => fail
      | context [save_to_history] => fail
      | _ => destruct x eqn:?
      end
  end.

Ltac exec_run_sent :=
  match goal with
  | |- context [detectLanguageAndTranslate ?e ?t ?s ?n] =>
      let Q := fresh "Q" in
      pattern (detectLanguageAndTranslate e t s n);
      match goal with |- ?P _ => set (Q := P) end;
      run; repeat (step_sent; run; try discriminate);
      subst Q; cbv beta; fields
  end.

Lemma get_limited_other k c :
  JsMap.first_key c <> Some k -> JsMap.get k (limited c) = JsMap.get k c.
Proof.
  unfold limited. intros Hk.
  destruct (100 <? _); [|reflexivity].
  destruct (JsMap.first_key c) as [k0|]; [|reflexivity].
  destruct (truthy k0); [|reflexivity].
  apply JsMapFacts.get_delete_other. congruence.
Qed.

Lemma first_key_set k v c k' :
  JsMap.first_key (JsMap.set k v c) = Some k' ->
  k' = k \/ JsMap.first_key c = Some k'.
Proof.
  destruct c as [|[k0 v0] c]; cbn.
  - intros [= <-]. now left.
  - destruct (String.eqb_spec k0 k); cbn; intros [= <-]; auto.
Qed.

Lemma get_after_write k key v c :
  k <> key -> JsMap.first_key c <> Some k ->
  JsMap.get k (limited (JsMap.set key v c)) = JsMap.get k c.
Proof.
  intros Hk Hfirst. rewrite get_limited_other.
  - apply JsMapFacts.get_set_other. congruence.
  - intros H. apply first_key_set in H. destruct H; congruence.
Qed.

(** The facts below hold on every path of [detectLanguageAndTranslate]. *)
Lemma run_shape env text st now :
  let m := detectLanguageAndTranslate env text st now in
  (isHealthy (state m) = isHealthy st
   /\ mlEngineHealthy (state m) = mlEngineHealthy st
   /\ useMLEngine (state m) = useMLEngine st)
  /\ (blank text = false -> isTranslating (state m) = false)
  /\ (count is_detect_call (events m) <= 1
      /\ count is_ml_translate (events m) <= 1
      /\ count is_ollama_translate (events m) <= 1
      /\ count is_history_call (events m) <= 1)%nat
  /\ (forall h, In (Invoked (save_translation_history h)) (events m) ->
      history_enabled env = true
      /\ sourceText h = text
      /\ h_translatedText h = translatedText (state m)
      /\ fromLanguage h = actualFromLang (frame m)
      /\ toLanguage h = actualToLang (frame m)
      /\ lastUsedEngine (state m) = Some (engine h)
      /\ latencyMs h = match lastTranslationLatency (state m) with
                       | Some l => if 0 <? l then Some l else None
                       | None => None
                       end
      /\ historyPath h = match localStorage env "historyPath" with
                         | Some p => if truthy p then Some p else None
                         | None => None
                         end
      /\ blank (translatedText (state m)) = false)
  /\ (forall k, k <> cacheKey (frame m) ->
      JsMap.first_key (translationCache st) <> Some k ->
      JsMap.get k (translationCache (state m))
      = JsMap.get k (translationCache st))
  /\ (history_enabled env = true ->
      forall ev r, In ev (events m) -> translation_of env ev = Some r ->
      blank r = false ->
      exists h, In (Invoked (save_translation_history h)) (events m)
                /\ h_translatedText h = r).
Proof.
  intros m; subst m.
  destruct st as [? ? ? ? [] [] [] ? ? ?]; fields.
  all: exec_run_sent.
  all: split; [repeat split
              |split; [reflexivity || (intros; congruence)
                      |split; [cbn; lia|split; [|split]]]].
  all: try (intros h Hin; read_log; repeat split;
            first [assumption | reflexivity]).
  all: try (intros k Hk Hfirst; try reflexivity;
            rewrite ?get_after_write by assumption; try reflexivity;
            apply JsMapFacts.get_set_other; congruence).
  all: intros Hen ev r Hin Htr Hb; read_log; cbn [translation_of] in Htr;
    read_replies; try discriminate;
    try (injection Htr as Htr; subst r); try congruence.
  all: eexists; (split; [in_log|reflexivity]).
Qed.

Lemma count_positive p ev evs :
  In ev evs -> p ev = true -> (1 <= count p evs)%nat.
Proof.
  unfold count. induction evs as [|e evs IH]; intros Hin Hp; [contradiction|].
  cbn [filter]. destruct Hin as [->|Hin].
  - rewrite Hp. cbn. lia.
  - destruct (p e); cbn [length]; auto with arith.
Qed.

(** X3.  [detectLanguageAndTranslate] never writes the two health flags or
    the engine preference: whatever the text, the backend answers and the
    path taken, the three have the values they had when it was called. *)
Theorem health_flags_never_written env text st now :
  let m := detectLanguageAndTranslate env text st now in
  isHealthy (state m) = isHealthy st
  /\ mlEngineHealthy (state m) = mlEngineHealthy st
  /\ useMLEngine (state m) = useMLEngine st.
Proof. exact (proj1 (run_shape env text st now)). Qed.

(** X4.  One invocation of [detectLanguageAndTranslate] sends at most one
    detection command, at most one [ml_translate], at most one [translate]
    and at most one [save_translation_history]: no command is retried, and
    the fallback is the only second translation attempt. *)
Theorem commands_sent_at_most_once env text st now :
  let m := detectLanguageAndTranslate env text st now in
  (count is_detect_call (events m) <= 1
   /\ count is_ml_translate (events m) <= 1
   /\ count is_ollama_translate (events m) <= 1
   /\ count is_history_call (events m) <= 1)%nat.
Proof. exact (proj1 (proj2 (proj2 (run_shape env text st now)))). Qed.

(** X5.  Every invocation on a non-blank text ends with the is-translating
    flag off (the [finally] block), whether it was a cache hit, a success,
    a fallback or a failure, and whatever the flag was at the call. *)
Theorem translating_flag_off_at_end env text st now :
  blank text = false ->
  isTranslating (state (detectLanguageAndTranslate env text st now)) = false.
Proof. exact (proj1 (proj2 (run_shape env text st now))). Qed.

(** Every command rejected, from a state left with the flag on. *)
Lemma translating_flag_off_at_end_witness :
  isTranslating
    (state (detectLanguageAndTranslate all_failing "Hello"
              (with_isTranslating true
                 (idle "Auto" "Japanese" true false false [])) 0))
  = false.
Proof.
  apply (translating_flag_off_at_end all_failing "Hello"
           (with_isTranslating true
              (idle "Auto" "Japanese" true false false [])) 0).
  reflexivity.
Defined.

(** X6.  A history entry is sent only when history is not switched off in
    [localStorage], and it describes what the invocation leaves on screen:
    its source text is the text of the request, its translation the
    non-blank translation shown, its languages the effective pair, its
    engine the last-used engine, its latency the last latency when that
    is positive (a latency of 0 is sent as [undefined]), and its path the
    history path of [localStorage] when one is set. *)
Theorem history_entry_matches_result env text st now h :
  let m := detectLanguageAndTranslate env text st now in
  In (Invoked (save_translation_history h)) (events m) ->
  history_enabled env = true
  /\ sourceText h = text
  /\ h_translatedText h = translatedText (state m)
  /\ fromLanguage h = actualFromLang (frame m)
  /\ toLanguage h = actualToLang (frame m)
  /\ lastUsedEngine (state m) = Some (engine h)
  /\ latencyMs h = match lastTranslationLatency (state m) with
                   | Some l => if 0 <? l then Some l else None
                   | None => None
                   end
  /\ historyPath h = match localStorage env "historyPath" with
                     | Some p => if truthy p then Some p else None
                     | None => None
                     end
  /\ blank (translatedText (state m)) = false.
Proof.
  exact (proj1 (proj2 (proj2 (proj2 (run_shape env text st now)))) h).
Qed.

(** A first translation by Ollama, answered after 900 ms. *)
Lemma history_entry_matches_result_witness :
  let env := answering "Japanese" "English" "konnichiwa" in
  let m := detectLanguageAndTranslate env "Hello"
             (idle "Auto" "Japanese" true false false []) 0 in
  let h := history_entry env "Hello" "konnichiwa" "English" "Japanese"
             ollama 900 in
  In (Invoked (save_translation_history h)) (events m)
  /\ h_translatedText h = translatedText (state m)
  /\ lastUsedEngine (state m) = Some (engine h).
Proof.
  cbv zeta.
  assert (Hin : In (Invoked (save_translation_history
                      (history_entry
                         (answering "Japanese" "English" "konnichiwa")
                         "Hello" "konnichiwa" "English" "Japanese"
                         ollama 900)))
                  (events (detectLanguageAndTranslate
                             (answering "Japanese" "English" "konnichiwa")
                             "Hello"
                             (idle "Auto" "Japanese" true false false [])
                             0))).
  { vm_compute. repeat (first [left; reflexivity | right]). }
  destruct (history_entry_matches_result _ _ _ _ _ Hin)
    as (_ & _ & Htext & _ & _ & Hengine & _).
  exact (conj Hin (conj Htext Hengine)).
Defined.

(** X7.  One invocation touches at most two cache entries: the one under
    the key it computed, which it may write, and the oldest one, which the
    size limit may evict.  Every other key is looked up after the
    invocation as before it. *)
Theorem other_cache_entries_kept env text st now k :
  let m := detectLanguageAndTranslate env text st now in
  k <> cacheKey (frame m) ->
  JsMap.first_key (translationCache st) <> Some k ->
  JsMap.get k (translationCache (state m))
  = JsMap.get k (translationCache st).
Proof.
  exact (proj1 (proj2 (proj2 (proj2 (proj2 (run_shape env text st now)))))
           k).
Qed.

(** A cache of three entries and a new request: the second entry stays. *)
Lemma other_cache_entries_kept_witness :
  let st := idle "Auto" "Japanese" true false false (cache_of_size 3) in
  let m := detectLanguageAndTranslate
             (answering "Japanese" "English" "konnichiwa") "Hello" st 0 in
  JsMap.get "text1|English|Japanese" (translationCache (state m))
  = JsMap.get "text1|English|Japanese" (translationCache st).
Proof.
  cbv zeta.
  apply (other_cache_entries_kept
           (answering "Japanese" "English" "konnichiwa") "Hello"
           (idle "Auto" "Japanese" true false false (cache_of_size 3)) 0
           "text1|English|Japanese").
  - vm_compute. discriminate.
  - vm_compute. discriminate.
Defined.

(** X17.  Every fresh translation is recorded.  With history not switched
    off, an invocation in which a translate command, of either engine, as
    first choice or as fallback, resolved with a non-blank text sends
    exactly one history entry, and that entry carries the text the command
    returned. *)
Theorem fresh_translation_recorded env text st now ev r :
  let m := detectLanguageAndTranslate env text st now in
  history_enabled env = true ->
  In ev (events m) -> translation_of env ev = Some r -> blank r = false ->
  (exists h, In (Invoked (save_translation_history h)) (events m)
             /\ h_translatedText h = r)
  /\ count is_history_call (events m) = 1%nat.
Proof.
  intros m Hen Hin Htr Hb.
  destruct (run_shape env text st now) as (_ & _ & Hcount & _ & _ & Hsent).
  fold m in Hcount, Hsent.
  destruct (Hsent Hen ev r Hin Htr Hb) as (h & Hh & Hr).
  split; [now exists h|].
  pose proof (count_positive is_history_call _ _ Hh eq_refl).
  lia.
Qed.

(** The fallback after a rejected ML call. *)
Lemma fresh_translation_recorded_witness :
  let m := detectLanguageAndTranslate ml_failing "Hello"
             (idle "Auto" "Japanese" true true true []) 0 in
  count is_history_call (events m) = 1%nat.
Proof.
  cbv zeta.
  apply (fresh_translation_recorded ml_failing "Hello"
           (idle "Auto" "Japanese" true true true []) 0
           (Invoked (translate "Hello" "English" "Japanese")) "konnichiwa").
  - reflexivity.
  - vm_compute. repeat (first [left; reflexivity | right]).
  - reflexivity.
  - reflexivity.
Defined.

(** X18.  The history settings are respected by the next request.  After
    [handleHistoryToggle] and [handleHistoryPathChange] of the settings
    screen: with history switched off no invocation sends a history entry,
    whatever it translates; with history switched on every fresh non-blank
    translation is recorded; and every entry sent carries the path that was
    set, or no path when the empty string was set. *)
Theorem history_settings_respected env text st now enabled path :
  let ls := handleHistoryPathChange path
              (handleHistoryToggle enabled (localStorage env)) in
  let env' := with_localStorage ls env in
  let m := detectLanguageAndTranslate env' text st now in
  (if enabled
   then forall ev r, In ev (events m) -> translation_of env' ev = Some r ->
                     blank r = false ->
                     exists h, In (Invoked (save_translation_history h))
                                 (events m)
                               /\ h_translatedText h = r
   else forall ev, In ev (events m) -> is_history_call ev = false)
  /\ (forall h, In (Invoked (save_translation_history h)) (events m) ->
      historyPath h = if truthy path then Some path else None).
Proof.
  intros ls env' m.
  assert (Hen : history_enabled env' = enabled) by (now destruct enabled).
  destruct (run_shape env' text st now) as (_ & _ & _ & Hentry & _ & Hsent).
  fold m in Hentry, Hsent. split.
  - destruct enabled.
    + exact (Hsent Hen).
    + intros [[]|] Hin; try reflexivity.
      destruct (Hentry _ Hin) as (Hon & _). congruence.
  - intros h Hin.
    destruct (Hentry h Hin) as (_ & _ & _ & _ & _ & _ & _ & Hpath & _).
    exact Hpath.
Qed.

(** X19.  A native language chosen in the settings screen takes effect at
    the next request that resolves its target, without [App] being mounted
    again: in auto mode, or when the detected language equals the target
    shown, the target becomes the language set (English when the language
    set is the one detected) and is shown.  A request whose source is
    chosen by hand and whose detected language differs from the target
    shown keeps that target. *)
Theorem native_language_setting_takes_effect env text st now langCode d :
  let env' := with_localStorage
                (handleLanguageChange langCode (localStorage env)) env in
  let m := detectLanguageAndTranslate env' text st now in
  langCode <> ""%string -> blank text = false ->
  detection env' st text = inr d ->
  (fromLang st = "Auto"%string \/ d = toLang st ->
   actualToLang (frame m)
   = (if (d =? langCode)%string then "English"%string else langCode)
   /\ toLang (state m) = actualToLang (frame m))
  /\ (fromLang st <> "Auto"%string -> d <> toLang st ->
      actualToLang (frame m) = toLang st).
Proof.
  intros env' m Hlang Hb Hd.
  assert (Hnative : nativeLang env' = langCode).
  { unfold nativeLang, env', handleLanguageChange, setItem, or_else. cbn.
    destruct langCode; [congruence|reflexivity]. }
  destruct (after_detection env' text st now d Hb Hd)
    as (_ & _ & _ & Hshown & Hauto & Hmanual & _).
  fold m in Hshown, Hauto, Hmanual. rewrite Hnative in Hauto.
  split; [intros Hmode; split; auto|exact Hmanual].
Qed.

(** Japanese at first start, French set later, then an English text. *)
Lemma native_language_setting_takes_effect_witness :
  let env := with_localStorage
               (handleLanguageChange "French"
                  (storage_with_native "Japanese"))
               (answering "Japanese" "English" "bonjour") in
  let st := core (initial (storage_with_native "Japanese")) in
  toLang st = "Japanese"%string
  /\ toLang (state (detectLanguageAndTranslate env "Hello" st 0))
     = "French"%string.
Proof.
  cbv zeta. split; [reflexivity|].
  destruct (native_language_setting_takes_effect
              (answering "Japanese" "English" "bonjour") "Hello"
              (core (initial (storage_with_native "Japanese"))) 0
              "French" "English" ltac:(discriminate) eq_refl eq_refl)
    as (Hauto & _).
  destruct (Hauto (or_introl eq_refl)) as (Htarget & Hshown).
  exact (eq_trans Hshown Htarget).
Defined.

(** ** The cache key *)

Lemma bar_free_app_bar a b : bar_free (a ++ "|" ++ b) = false.
Proof.
  induction a as [|c a IH]; cbn.
  - reflexivity.
  - cbn in IH. rewrite IH. apply andb_false_r.
Qed.

Lemma split_at_last_bar a b a' b' :
  bar_free b = true -> bar_free b' = true ->
  (a ++ "|" ++ b)%string = (a' ++ "|" ++ b')%string -> a = a' /\ b = b'.
Proof.
  intros Hb Hb'. revert a'.
  induction a as [|c a IH]; intros [|c' a'] H; cbn in H.
  - now injection H.
  - injection H as <- ->. change (String "|" b') with ("|" ++ b')%string in Hb.
    now rewrite bar_free_app_bar in Hb.
  - injection H as -> <-. change (String "|" b) with ("|" ++ b)%string in Hb'.
    now rewrite bar_free_app_bar in Hb'.
  - injection H as <- H. destruct (IH a' H) as [-> ->]. now split.
Qed.

Lemma append_assoc3 (a b c : string) :
  ((a ++ b) ++ c)%string = (a ++ b ++ c)%string.
Proof. induction a; cbn; congruence. Qed.

Lemma request_key_regroup (text f t : string) :
  (text ++ "|" ++ f ++ "|" ++ t)%string
  = ((text ++ "|" ++ f) ++ "|" ++ t)%string.
Proof. now rewrite append_assoc3. Qed.

(** X8.  The cache key identifies the request.  When detection succeeded in
    two invocations and the language names of their effective pairs hold no
    ["|"], equal cache keys mean the same text and the same effective pair,
    even when the texts themselves hold the delimiter: two different
    requests never share a cache entry. *)
Theorem cache_key_determines_request
  env1 text1 st1 now1 d1 env2 text2 st2 now2 d2 :
  let m1 := detectLanguageAndTranslate env1 text1 st1 now1 in
  let m2 := detectLanguageAndTranslate env2 text2 st2 now2 in
  blank text1 = false -> detection env1 st1 text1 = inr d1 ->
  blank text2 = false -> detection env2 st2 text2 = inr d2 ->
  bar_free (actualFromLang (frame m1)) = true ->
  bar_free (actualToLang (frame m1)) = true ->
  bar_free (actualFromLang (frame m2)) = true ->
  bar_free (actualToLang (frame m2)) = true ->
  cacheKey (frame m1) = cacheKey (frame m2) ->
  text1 = text2
  /\ actualFromLang (frame m1) = actualFromLang (frame m2)
  /\ actualToLang (frame m1) = actualToLang (frame m2).
Proof.
  intros m1 m2 Hb1 Hd1 Hb2 Hd2 Hf1 Ht1 Hf2 Ht2 Hkey.
  destruct (after_detection env1 text1 st1 now1 d1 Hb1 Hd1) as (Ha1 & Hk1 & _).
  destruct (after_detection env2 text2 st2 now2 d2 Hb2 Hd2) as (Ha2 & Hk2 & _).
  fold m1 in Ha1, Hk1. fold m2 in Ha2, Hk2.
  rewrite <- Ha1 in Hk1. rewrite <- Ha2 in Hk2.
  rewrite Hk1, Hk2 in Hkey.
  rewrite !request_key_regroup in Hkey.
  destruct (split_at_last_bar _ _ _ _ Ht1 Ht2 Hkey) as [Hleft Hto].
  destruct (split_at_last_bar _ _ _ _ Hf1 Hf2 Hleft) as [Htext Hfrom].
  now repeat split.
Qed.

(** The same text in auto mode and with the pair chosen by hand. *)
Lemma cache_key_determines_request_witness :
  let env := answering "Japanese" "English" "konnichiwa" in
  let m1 := detectLanguageAndTranslate env "Hello"
              (idle "Auto" "Japanese" true false false []) 0 in
  let m2 := detectLanguageAndTranslate env "Hello"
              (idle "English" "Japanese" true true true (cache_of_size 3))
              7 in
  cacheKey (frame m1) = cacheKey (frame m2)
  /\ actualToLang (frame m1) = actualToLang (frame m2).
Proof.
  cbv zeta.
  assert (Hkey : cacheKey (frame (detectLanguageAndTranslate
                    (answering "Japanese" "English" "konnichiwa") "Hello"
                    (idle "Auto" "Japanese" true false false []) 0))
                 = cacheKey (frame (detectLanguageAndTranslate
                    (answering "Japanese" "English" "konnichiwa") "Hello"
                    (idle "English" "Japanese" true true true
                       (cache_of_size 3)) 7))).
  { vm_compute. reflexivity. }
  destruct (cache_key_determines_request
              (answering "Japanese" "English" "konnichiwa") "Hello"
              (idle "Auto" "Japanese" true false false []) 0 "English"
              (answering "Japanese" "English" "konnichiwa") "Hello"
              (idle "English" "Japanese" true true true (cache_of_size 3))
              7 "English"
              eq_refl eq_refl eq_refl eq_refl eq_refl eq_refl eq_refl eq_refl
              Hkey) as (_ & _ & Hto).
  exact (conj Hkey Hto).
Defined.

(** ** Health probes and the native language *)



(** X10.  The native language chosen in the setup dialog is the one every
    later reader finds.  After [setupNativeLanguage language], with
    [language] not the empty string: the dialog is closed and the target
    shown is [language]; an [App] mounted again from the storage starts
    with the dialog closed and target [language]; no other key of
    [localStorage] is changed; and a request in auto mode resolves its
    target from [language], to English when [language] is what was
    detected and to [language] otherwise. *)
Theorem setup_language_round_trip language ls ui env text now d :
  language <> ""%string ->
  let r := setupNativeLanguage language ls ui in
  let env' := with_localStorage (fst r) env in
  let st := core (snd r) in
  showLanguageSetup (snd r) = false
  /\ toLang st = language
  /\ showLanguageSetup (initial (fst r)) = false
  /\ toLang (core (initial (fst r))) = language
  /\ (forall k, k <> "nativeLang"%string -> fst r k = ls k)
  /\ (blank text = false -> fromLang (core ui) = "Auto"%string ->
      detection env' st text = inr d ->
      actualToLang (frame (detectLanguageAndTranslate env' text st now))
      = if (d =? language)%string then "English"%string else language).
Proof.
  intros Hlang r env' st.
  assert (Htruthy : truthy language = true)
    by (destruct language; [congruence|reflexivity]).
  assert (Hnative : nativeLang env' = language).
  { unfold nativeLang, env', r, setupNativeLanguage, with_localStorage,
      setItem, or_else. cbn. now rewrite Htruthy. }
  assert (Hstored : fst r "nativeLang"%string = Some language)
    by reflexivity.
  split; [reflexivity|].
  split; [subst st r; cbn; now destruct (core ui)|].
  split; [unfold initial; cbn [showLanguageSetup]; now rewrite Hstored, Htruthy|].
  split; [unfold initial, or_else; cbn [core toLang];
          now rewrite Hstored, Htruthy|].
  split.
  - intros k Hk. cbn. unfold setItem.
    apply String.eqb_neq in Hk. now rewrite Hk.
  - intros Hb Hauto Hd.
    destruct (after_detection env' text st now d Hb Hd)
      as (_ & _ & _ & _ & Hto & _).
    rewrite Hnative in Hto. apply Hto. left.
    subst st r. cbn. now destruct (core ui).
Qed.

(** First start, French chosen, then an English text. *)
Lemma setup_language_round_trip_witness :
  let r := setupNativeLanguage "French" (fun _ => None)
             (initial (fun _ => None)) in
  let env := with_localStorage (fst r)
               (answering "Japanese" "English" "bonjour") in
  showLanguageSetup (initial (fun _ => None)) = true
  /\ showLanguageSetup (initial (fst r)) = false
  /\ actualToLang (frame (detectLanguageAndTranslate env "Hello"
                            (core (snd r)) 0))
     = "French"%string.
Proof.
  cbv zeta. split; [reflexivity|].
  destruct (setup_language_round_trip "French" (fun _ => None)
              (initial (fun _ => None))
              (answering "Japanese" "English" "bonjour") "Hello" 0 "English"
              ltac:(discriminate))
    as (_ & _ & Hmount & _ & _ & Hto).
  exact (conj Hmount (Hto eq_refl eq_refl eq_refl)).
Defined.

(** ** What starts a translation: typing, the clipboard, the shortcuts *)

Ltac ui_fields :=
  cbn [core inputText autoTranslate lastClipboard showLanguageSetup timer
       with_core with_inputText with_lastClipboard with_showLanguageSetup
       with_timer deadline pending_text fst snd] in *.

Lemma timer_due_early p t ui :
  settled p ui ->
  match p with Some p0 => (t < p0 + 500)%Q | None => True end ->
  timer_due t ui = (ui, []).
Proof.
  unfold settled, timer_due. destruct p as [p0|]; intros -> Ht; [|reflexivity].
  destruct (blank (inputText ui)); [reflexivity|]. cbn [deadline].
  destruct (Qle_bool (p0 + 500) t) eqn:E; [|reflexivity].
  apply Qle_bool_iff in E. lra.
Qed.

Lemma setInputText_changed now text ui :
  text <> inputText ui ->
  let ui' := setInputText now text ui in
  inputText ui' = text /\ settled (Some now) ui'
  /\ (blank text = true -> translatedText (core ui') = ""%string)
  /\ (blank text = false -> core ui' = core ui)
  /\ lastClipboard ui' = lastClipboard ui
  /\ autoTranslate ui' = autoTranslate ui.
Proof.
  intros Hne. unfold setInputText, inputText_effect, settled.
  apply String.eqb_neq in Hne. rewrite Hne. ui_fields.
  destruct (blank text) eqn:Hb; ui_fields; rewrite ?Hb;
    repeat split; intros; congruence.
Qed.

Lemma type_at_early p t text ui calls :
  settled p ui ->
  match p with Some p0 => (p0 <= t /\ t < p0 + 500)%Q | None => True end ->
  type_at (ui, calls) (t, text) = (setInputText t text ui, calls).
Proof.
  intros Hset Htime. unfold type_at. cbn [fst snd].
  rewrite (timer_due_early p t ui Hset) by (destruct p; tauto).
  cbn [fst snd]. now rewrite app_nil_r.
Qed.

Lemma last_cons {A} (a d : A) l : last (a :: l) d = last l a.
Proof.
  revert a d. induction l as [|b l IH]; intros a d; [reflexivity|].
  change (last (a :: b :: l) d) with (last (b :: l) d).
  now rewrite !IH.
Qed.

Lemma typing_burst edits : forall edit ui calls p,
  settled p ui ->
  burst p (inputText ui) (edit :: edits) ->
  let r := typing (edit :: edits) (ui, calls) in
  let final := last edits edit in
  snd r = calls
  /\ inputText (fst r) = snd final
  /\ settled (Some (fst final)) (fst r)
  /\ (blank (snd final) = true -> translatedText (core (fst r)) = ""%string).
Proof.
  induction edits as [|next edits IH]; intros [t text] ui calls p Hset Hb;
    destruct Hb as (Htime & Hne & Hrest);
    change (typing ((t, text) :: ?l) ?acc)
      with (typing l (type_at acc (t, text)));
    rewrite (type_at_early p t text ui calls Hset Htime);
    destruct (setInputText_changed t text ui Hne) as (Hin & Hset' & Hclear & _).
  - cbn. auto.
  - rewrite <- Hin in Hrest. cbv zeta. rewrite last_cons.
    exact (IH next (setInputText t text ui) calls (Some t) Hset' Hrest).
Qed.

(** X11.  The debounce of the effect on [inputText].  From a screen with no
    timer pending, a burst of edits, each less than 500 ms after the one
    before and each changing the text, calls [translateText] not once while
    it lasts, whatever the intermediate texts; no call is made before
    500 ms have passed since the last edit; at that moment exactly one call
    is made, with the last text.  When the last text is blank no call is
    made at any time and the translation shown is cleared. *)
Theorem debounced_burst edit edits ui :
  timer ui = None ->
  burst None (inputText ui) (edit :: edits) ->
  let r := typing (edit :: edits) (ui, []) in
  let final := last edits edit in
  snd r = []
  /\ (forall t, (t < fst final + 500)%Q -> snd (timer_due t (fst r)) = [])
  /\ (blank (snd final) = false ->
      snd (timer_due (fst final + 500)%Q (fst r))
      = [((fst final + 500)%Q, snd final)])
  /\ (blank (snd final) = true ->
      translatedText (core (fst r)) = ""%string
      /\ forall t, snd (timer_due t (fst r)) = []).
Proof.
  intros Hnone Hb r final.
  destruct (typing_burst edits edit ui [] None Hnone Hb)
    as (Hcalls & Hin & Hset & Hblank).
  fold r final in Hcalls, Hin, Hset, Hblank.
  repeat split.
  - exact Hcalls.
  - intros t Ht. now rewrite (timer_due_early (Some (fst final)) t _ Hset Ht).
  - intros Hnb. unfold timer_due. unfold settled in Hset.
    rewrite Hset, Hin, Hnb.
    cbn [deadline pending_text].
    assert (Qle_bool (fst final + 500) (fst final + 500) = true) as ->
      by (apply Qle_bool_iff; lra).
    reflexivity.
  - auto.
  - intros t. unfold timer_due. unfold settled in Hset.
    rewrite Hset, Hin, H. reflexivity.
Qed.

(** Three key strokes within 250 ms on the first screen: one call, 500 ms
    after the third, with the text then held. *)
Lemma debounced_burst_witness :
  let ui := initial (storage_with_native "Japanese") in
  let r := typing [(0%Q, "H"); (100%Q, "He"); (250%Q, "Hel")] (ui, []) in
  snd r = []
  /\ snd (timer_due (250 + 500) (fst r)) = [((250 + 500)%Q, "Hel"%string)].
Proof.
  cbv zeta.
  destruct (debounced_burst (0%Q, "H")
              [(100%Q, "He"); (250%Q, "Hel")]
              (initial (storage_with_native "Japanese")) eq_refl)
    as (Hquiet & _ & Hcall & _).
  - cbn. repeat split; try discriminate; lra.
  - exact (conj Hquiet (Hcall eq_refl)).
Defined.




(** X13.  Swapping before there is a translation loses the source text.
    With the source language chosen by hand and a blank translation shown,
    one press of the swap button moves the blank translation into the
    input; the effect on [inputText] then clears the translation, so the
    text the user had typed is on neither side, no timer is pending to
    translate anything, and the languages are swapped. *)
Theorem switchLanguages_without_translation now ui :
  fromLang (core ui) <> "Auto"%string ->
  blank (translatedText (core ui)) = true ->
  inputText ui <> translatedText (core ui) ->
  let ui' := switchLanguages now ui in
  inputText ui' = translatedText (core ui)
  /\ translatedText (core ui') = ""%string
  /\ timer ui' = None
  /\ fromLang (core ui') = toLang (core ui)
  /\ toLang (core ui') = fromLang (core ui).
Proof.
  intros Ha Hb Hne. unfold switchLanguages.
  apply String.eqb_neq in Ha. rewrite Ha. cbn [negb].
  unfold setInputText, inputText_effect. ui_fields.
  destruct (String.eqb_spec (translatedText (core ui)) (inputText ui)) as [E|E];
    [congruence|].
  ui_fields. rewrite Hb. ui_fields. repeat split; now destruct (core ui).
Qed.

(** "Hello" typed, nothing translated yet, swap pressed. *)
Lemma switchLanguages_without_translation_witness :
  let ui' := switchLanguages 10
               (showing "English" "Japanese" "Hello" "") in
  inputText ui' = ""%string /\ translatedText (core ui') = ""%string.
Proof.
  cbv zeta.
  destruct (switchLanguages_without_translation 10
              (showing "English" "Japanese" "Hello" "")
              ltac:(discriminate) eq_refl ltac:(discriminate))
    as (Hinput & Hshown & _).
  exact (conj Hinput Hshown).
Defined.

(** X14.  Polling the clipboard is idempotent: a second poll that finds
    the same clipboard content as the one before changes nothing, so a
    text left on the clipboard is submitted once, not every second. *)
Theorem clipboard_poll_idempotent now1 now2 reply ui :
  let ui1 := clipboard_interval now1 reply ui in
  clipboard_interval now2 reply ui1 = ui1.
Proof.
  unfold clipboard_interval.
  destruct (autoTranslate ui) eqn:Hauto; cbv zeta; [|now rewrite Hauto].
  unfold checkClipboard. destruct reply as [e|c]; [now rewrite Hauto|].
  destruct (truthy c && negb (c =? lastClipboard ui)%string && negb (blank c))
    eqn:Hcond.
  - assert (Hauto' : autoTranslate
                       (setInputText now1 c (with_lastClipboard c ui)) = true).
    { unfold setInputText, inputText_effect. ui_fields.
      destruct (c =? inputText ui)%string; ui_fields; [assumption|].
      destruct (blank c); ui_fields; assumption. }
    assert (Hlast : lastClipboard
                      (setInputText now1 c (with_lastClipboard c ui)) = c).
    { unfold setInputText, inputText_effect. ui_fields.
      destruct (c =? inputText ui)%string; ui_fields; [reflexivity|].
      destruct (blank c); ui_fields; reflexivity. }
    rewrite Hauto', Hlast, String.eqb_refl.
    now rewrite andb_false_r.
  - now rewrite Hauto, Hcond.
Qed.

(** X15.  What a clipboard poll can do.  It either leaves [App] as it is,
    or auto mode is on and the clipboard holds a non-blank text other than
    the last one taken: that text is then recorded as the last one taken
    and becomes the input, and, when it differs from the input held, the
    500 ms timer is started for it.  The poll itself never calls
    [translateText]; a blank clipboard and a rejected read change
    nothing. *)
Theorem clipboard_poll_takes_new_text now reply ui :
  let ui' := clipboard_interval now reply ui in
  ui' = ui
  \/ (autoTranslate ui = true
      /\ exists c, reply = inr c /\ blank c = false /\ c <> lastClipboard ui
                   /\ lastClipboard ui' = c /\ inputText ui' = c
                   /\ (c <> inputText ui ->
                       timer ui' = Some {| deadline := (now + 500)%Q;
                                           pending_text := c |})).
Proof.
  unfold clipboard_interval, checkClipboard.
  destruct (autoTranslate ui); [|now left].
  destruct reply as [e|c]; [now left|].
  destruct (truthy c) ; cbn [andb]; [|now left].
  destruct (String.eqb_spec c (lastClipboard ui)); cbn [andb negb]; [now left|].
  destruct (blank c) eqn:Hb; cbn [negb]; [now left|].
  right. split; [reflexivity|]. exists c.
  unfold setInputText, inputText_effect. ui_fields.
  destruct (String.eqb_spec c (inputText ui)) as [E|E]; ui_fields;
    rewrite ?Hb; ui_fields; repeat split; congruence.
Qed.

(** X16.  The translate shortcut and the history screen submit a new text
    twice.  Both set the input and call [translateText] at once; when the
    text is non-blank and differs from the input held, the effect on
    [inputText] also starts its timer, which calls [translateText] with
    the same text 500 ms later.  Nothing is pending after that. *)
Theorem new_text_submitted_twice now c ui :
  blank c = false -> c <> inputText ui ->
  let after r :=
    (snd r ++ snd (timer_due (now + 500)%Q (fst r)))%list
    = [(now, c); ((now + 500)%Q, c)]
    /\ forall t,
       snd (timer_due t (fst (timer_due (now + 500)%Q (fst r)))) = [] in
  after (on_translate_shortcut now (inr c) ui)
  /\ after (onLoadTranslation now c ui).
Proof.
  intros Hb Hne. cbv zeta beta. unfold on_translate_shortcut, onLoadTranslation.
  assert (truthy c = true) as -> by (destruct c; [discriminate|reflexivity]).
  cbn [fst snd]. unfold setInputText, inputText_effect.
  apply String.eqb_neq in Hne. rewrite Hne. ui_fields. rewrite Hb.
  unfold timer_due. ui_fields.
  assert (Qle_bool (now + 500) (now + 500) = true) as ->
    by (apply Qle_bool_iff; lra).
  ui_fields. repeat split; reflexivity.
Qed.

(** The shortcut on the first screen, "Hello" on the clipboard. *)
Lemma new_text_submitted_twice_witness :
  let r := on_translate_shortcut 10 (inr "Hello"%string)
             (initial (storage_with_native "Japanese")) in
  (snd r ++ snd (timer_due (10 + 500) (fst r)))%list
  = [(10%Q, "Hello"%string); ((10 + 500)%Q, "Hello"%string)].
Proof.
  cbv zeta.
  destruct (new_text_submitted_twice 10 "Hello"
              (initial (storage_with_native "Japanese"))
              eq_refl ltac:(discriminate))
    as ((Hcalls & _) & _).
  exact Hcalls.
Defined.
